(** * nxy: a rule-driven HTTP/HTTPS development proxy

    Shallow embedding of the request-dispatch engine ([proxy.ts]), the
    built-in rule handlers and the cache rule ([rules.ts]), the
    inspector journal ([inspector.ts]) and the command line, followed
    by the properties established about them.

    Conventions.
    - JavaScript strings are modelled by [string]; the development is
      about ASCII text, where a character is one UTF-16 code unit and
      one byte, so lengths and offsets agree.
    - JavaScript numbers that occur here are integral (status codes,
      epoch milliseconds, delays); they are modelled by [Z].
    - Code that can throw returns [result]; code that mutates an object
      (the request, the response sink, the static request table of the
      cache rule, the file system) threads that object explicitly. *)

From Stdlib Require Import ZArith Ascii String List Lia Bool.
From stdpp Require Import base option strings pretty gmap list.

Set Warnings "-register-all".

Local Open Scope string_scope.
Local Open Scope Z_scope.

(** ** Strings as the JavaScript runtime manipulates them *)

Module Str.

Definition is_upper (c : ascii) : bool :=
  let n := nat_of_ascii c in (65 <=? n)%nat && (n <=? 90)%nat.

Definition is_lower (c : ascii) : bool :=
  let n := nat_of_ascii c in (97 <=? n)%nat && (n <=? 122)%nat.

Definition is_digit (c : ascii) : bool :=
  let n := nat_of_ascii c in (48 <=? n)%nat && (n <=? 57)%nat.

Definition is_alpha (c : ascii) : bool := is_upper c || is_lower c.

Definition lower_char (c : ascii) : ascii :=
  if is_upper c then ascii_of_nat (nat_of_ascii c + 32) else c.

(** [String.prototype.toLowerCase] *)
Fixpoint toLowerCase (s : string) : string :=
  match s with
  | EmptyString => EmptyString
  | String c r => String (lower_char c) (toLowerCase r)
  end.

(** [String.prototype.startsWith] *)
Fixpoint startsWith (p s : string) : bool :=
  match p, s with
  | EmptyString, _ => true
  | String a p', String b s' => if Ascii.eqb a b then startsWith p' s' else false
  | String _ _, EmptyString => false
  end.

(** [s.substring(n)]: the text from offset [n] to the end; empty when
    [n] is past the end. *)
Fixpoint substring_from (n : nat) (s : string) : string :=
  match n, s with
  | O, _ => s
  | S n', String _ r => substring_from n' r
  | S _, EmptyString => EmptyString
  end.

(** Space, tab, line feed, vertical tab, form feed, carriage return:
    the ASCII part of what [trim] removes. *)
Definition is_space (c : ascii) : bool :=
  let n := nat_of_ascii c in
  (n =? 32)%nat || ((9 <=? n)%nat && (n <=? 13)%nat).

Fixpoint trimStart (s : string) : string :=
  match s with
  | String c r => if is_space c then trimStart r else s
  | EmptyString => EmptyString
  end.

Fixpoint trimEnd (s : string) : string :=
  match s with
  | EmptyString => EmptyString
  | String c r =>
      match trimEnd r with
      | EmptyString => if is_space c then EmptyString else String c EmptyString
      | r' => String c r'
      end
  end.

(** [String.prototype.trim] *)
Definition trim (s : string) : string := trimEnd (trimStart s).

(** [s.split(c)] for a one-character separator: always at least one
    piece, and an empty piece between adjacent separators. *)
Fixpoint split (sep : ascii) (s : string) : list string :=
  match s with
  | EmptyString => [EmptyString]
  | String c r =>
      if Ascii.eqb c sep then EmptyString :: split sep r
      else match split sep r with
           | p :: ps => String c p :: ps
           | [] => [String c EmptyString]
           end
  end.

(** [pieces.join(sep)] *)
Definition join (sep : string) (pieces : list string) : string :=
  String.concat sep pieces.

(** The text before the first character satisfying [stop], and the
    rest starting at that character. *)
Fixpoint break (stop : ascii -> bool) (s : string) : string * string :=
  match s with
  | EmptyString => (EmptyString, EmptyString)
  | String c r =>
      if stop c then (EmptyString, s)
      else let '(a, b) := break stop r in (String c a, b)
  end.

(** [s.replace(c, by)] with a string pattern: only the first
    occurrence is replaced. *)
Fixpoint replace_first (c : ascii) (by_ : string) (s : string) : string :=
  match s with
  | EmptyString => EmptyString
  | String d r =>
      if Ascii.eqb d c then by_ +:+ r else String d (replace_first c by_ r)
  end.

Definition is_empty (s : string) : bool :=
  match s with EmptyString => true | _ => false end.

(** Decimal numerals, as [ToNumber] reads them. *)
Fixpoint digits_value (acc : Z) (s : string) : option Z :=
  match s with
  | EmptyString => Some acc
  | String c r =>
      if is_digit c
      then digits_value (10 * acc + Z.of_nat (nat_of_ascii c - 48)) r
      else None
  end.

End Str.

(** ** JavaScript values, exceptions and the platform the code runs on *)

Module JS.

(** A thrown value: the constructor name ([TypeError], [RangeError],
    [SyntaxError], [Error]) and, for system errors, the code. *)
Record exn := Exn { exn_name : string; exn_code : string }.

(** The outcome of code that can throw. *)
Inductive result (A : Type) : Type :=
| Ok (a : A)
| Throw (e : exn).
Arguments Ok {A} a.
Arguments Throw {A} e.

(** A WHATWG [URL] object, by the components the code reads:
    [protocol] ends in a colon, [search] is empty or starts with a
    question mark, [hash] is empty or starts with a number sign. *)
Record URL := mkURL {
  protocol : string;
  host : string;
  pathname : string;
  search : string;
  hash : string
}.

(** A [RegExp] object: its source and its flags. *)
Record RegExp := mkRegExp {
  source : string;
  flags : string
}.

(** The class an object was constructed by, as far as [instanceof]
    can tell in this program: an object literal, an instance of
    [RuleResponse] (rules.ts), or an [http.IncomingMessage], which is
    a [Readable]. *)
Inductive klass := Object_ | RuleResponse_ | IncomingMessage_.

(** The values that flow through rule arguments, rule results and
    responses. [VReadStream p] is the lazy stream returned by
    [fs.createReadStream(p)]. *)
Inductive value : Type :=
| VUndefined
| VNull
| VBool (b : bool)
| VNum (n : Z)
| VStr (s : string)
| VURL (u : URL)
| VError (e : exn)
| VReadStream (path : string)
| VObj (k : klass) (props : list (string * value)).

(** [o.k]: the property, [undefined] when absent or when [o] has no
    properties of its own in this model. *)
Fixpoint assoc (k : string) (props : list (string * value)) : value :=
  match props with
  | [] => VUndefined
  | (k', v) :: rest => if String.eqb k k' then v else assoc k rest
  end.

Definition get (o : value) (k : string) : value :=
  match o with
  | VObj _ props => assoc k props
  | _ => VUndefined
  end.

(** [o.k = v] on an own property list: replaced in place, or added
    at the end. *)
Fixpoint assign (k : string) (v : value) (props : list (string * value))
  : list (string * value) :=
  match props with
  | [] => [(k, v)]
  | (k', v') :: rest =>
      if String.eqb k k' then (k, v) :: rest else (k', v') :: assign k v rest
  end.

Definition set (o : value) (k : string) (v : value) : value :=
  match o with
  | VObj c props => VObj c (assign k v props)
  | _ => o
  end.

(** [Object.assign(target, source)] on property lists. *)
Definition assign_all (target source : list (string * value))
  : list (string * value) :=
  fold_left (fun t kv => assign (fst kv) (snd kv) t) source target.

(** [v == null] *)
Definition is_nullish (v : value) : bool :=
  match v with VUndefined | VNull => true | _ => false end.

(** [a ?? b] *)
Definition coalesce (a b : value) : value := if is_nullish a then b else a.

(** ToBoolean. *)
Definition truthy (v : value) : bool :=
  match v with
  | VUndefined | VNull => false
  | VBool b => b
  | VNum n => negb (n =? 0)
  | VStr s => negb (Str.is_empty s)
  | _ => true
  end.

(** [a || b] *)
Definition or_else (a b : value) : value := if truthy a then a else b.

(** ToNumber, on the integral fragment; [None] stands for NaN. *)
Definition to_number (v : value) : option Z :=
  match v with
  | VNum n => Some n
  | VBool b => Some (if b then 1 else 0)
  | VNull => Some 0
  | VStr s =>
      match Str.trim s with
      | EmptyString => Some 0
      | t => Str.digits_value 0 t
      end
  | _ => None
  end.

(** [v | 0]: ToInt32, NaN going to zero. *)
Definition to_int32 (v : value) : Z :=
  match to_number v with
  | Some n => (n + 2147483648) mod 4294967296 - 2147483648
  | None => 0
  end.

(** [v instanceof Readable] *)
Definition is_readable (v : value) : bool :=
  match v with
  | VReadStream _ => true
  | VObj IncomingMessage_ _ => true
  | _ => false
  end.

(** [v instanceof RuleResponse] *)
Definition is_rule_response (v : value) : bool :=
  match v with VObj RuleResponse_ _ => true | _ => false end.

(** [v instanceof Error] *)
Definition is_error (v : value) : bool :=
  match v with VError _ => true | _ => false end.

(** [v instanceof URL] *)
Definition is_url (v : value) : bool :=
  match v with VURL _ => true | _ => false end.

(** What the program takes from the runtime and does not define
    itself: the WHATWG URL parser ([new URL(input)] and
    [new URL(input, base)], which throw a [TypeError] on an invalid
    URL), compiling a pattern and [RegExp.prototype.test] (a
    [SyntaxError] when the source does not compile), the MD5 digest
    in hexadecimal, and [path.resolve] on two segments. *)
Class Platform := {
  URL_parse : string -> option string -> result URL;
  RegExp_test : RegExp -> string -> result bool;
  md5_hex : string -> string;
  path_resolve : string -> string -> string
}.

End JS.

Import JS.

(** ** The Node.js objects the engine works on *)

Module Node.

(** *** [http.IncomingMessage]: the intercepted request

    [req_headers] is Node's header object, keyed by lower-cased
    name. [req_flowing] is [readableFlowing]: [None] before anyone
    chose, [Some false] once paused, [Some true] while flowing. *)
Record IncomingMessage := mkReq {
  req_url : string;
  req_method : string;
  req_httpVersion : string;
  req_headers : gmap string string;
  req_flowing : option bool
}.

Definition with_url (u : string) (r : IncomingMessage) : IncomingMessage :=
  mkReq u (req_method r) (req_httpVersion r) (req_headers r) (req_flowing r).

Definition with_headers (h : gmap string string) (r : IncomingMessage)
  : IncomingMessage :=
  mkReq (req_url r) (req_method r) (req_httpVersion r) h (req_flowing r).

Definition with_flowing (f : option bool) (r : IncomingMessage)
  : IncomingMessage :=
  mkReq (req_url r) (req_method r) (req_httpVersion r) (req_headers r) f.

(** [req.pause()] and [req.resume()] *)
Definition pause (r : IncomingMessage) : IncomingMessage :=
  with_flowing (Some false) r.

Definition resume (r : IncomingMessage) : IncomingMessage :=
  with_flowing (Some true) r.

(** [req.on("data", f)]: attaching a data listener starts the flow
    unless the stream was paused explicitly. *)
Definition on_data (r : IncomingMessage) : IncomingMessage :=
  match req_flowing r with
  | Some false => r
  | _ => resume r
  end.

(** A template literal prints an absent header as [undefined]. *)
Definition template (o : option string) : string :=
  match o with Some s => s | None => "undefined" end.

(** *** [http.ServerResponse]: the response sink

    [outHeaders] are the headers set progressively, keyed by
    lower-cased name and holding the name as written and the value.
    [head] is the status line and header block fixed by [writeHead].
    [body] is the chunk given to [end]; [piped] the stream a
    [pipeline] feeds into the sink; [destroyed] the error the sink
    was destroyed with. *)
Record ServerResponse := mkRes {
  outHeaders : gmap string (string * value);
  head : option (Z * string * gmap string (string * value));
  body : option string;
  finished : bool;
  piped : option value;
  destroyed : option exn
}.

Definition fresh_response : ServerResponse :=
  mkRes ∅ None None false None None.

Definition ERR_HTTP_HEADERS_SENT := Exn "Error" "ERR_HTTP_HEADERS_SENT".
Definition ERR_HTTP_INVALID_HEADER_VALUE :=
  Exn "TypeError" "ERR_HTTP_INVALID_HEADER_VALUE".
Definition ERR_HTTP_INVALID_STATUS_CODE :=
  Exn "RangeError" "ERR_HTTP_INVALID_STATUS_CODE".
Definition ERR_INVALID_ARG_TYPE := Exn "TypeError" "ERR_INVALID_ARG_TYPE".
Definition ERR_INVALID_URL := Exn "TypeError" "ERR_INVALID_URL".

(** [res.setHeader(name, value)]: refused once the head is fixed and
    for an undefined value; stored under the lower-cased name. *)
Definition setHeader (name : string) (v : value) (res : ServerResponse)
  : result ServerResponse :=
  match head res with
  | Some _ => Throw ERR_HTTP_HEADERS_SENT
  | None =>
      match v with
      | VUndefined => Throw ERR_HTTP_INVALID_HEADER_VALUE
      | _ =>
          Ok (mkRes (<[Str.toLowerCase name := (name, v)]> (outHeaders res))
                    (head res) (body res) (finished res) (piped res)
                    (destroyed res))
      end
  end.

(** The headers passed to [writeHead] are merged into those set
    before, one [setHeader] per own property in order, so that on a
    clash of names (in any letter case) the one passed to [writeHead]
    wins. *)
Fixpoint merge_headers (props : list (string * value)) (res : ServerResponse)
  : result ServerResponse :=
  match props with
  | [] => Ok res
  | (k, v) :: rest =>
      if Str.is_empty k then merge_headers rest res
      else match setHeader k v res with
           | Ok res' => merge_headers rest res'
           | Throw e => Throw e
           end
  end.

Definition own_props (v : value) : list (string * value) :=
  match v with VObj _ props => props | _ => [] end.

(** The reason phrase Node supplies for a status code when the caller
    gives none; only the codes this program writes that way. *)
Definition STATUS_CODES (code : Z) : string :=
  if code =? 204 then "No Content"
  else if code =? 200 then "OK"
  else if code =? 404 then "Not Found"
  else if code =? 500 then "Internal Server Error"
  else "unknown".

(** [res.writeHead(statusCode, statusMessage, headers)] and
    [res.writeHead(statusCode, headers)]: the status code is coerced
    with [| 0] and must lie in 100..999; a non-string second argument
    is the header object. *)
Definition writeHead (statusCode reason obj : value) (res : ServerResponse)
  : result ServerResponse :=
  match head res with
  | Some _ => Throw ERR_HTTP_HEADERS_SENT
  | None =>
      let code := to_int32 statusCode in
      if (code <? 100) || (999 <? code) then Throw ERR_HTTP_INVALID_STATUS_CODE
      else
        let '(message, obj') :=
          match reason with
          | VStr m => (m, obj)
          | _ => (STATUS_CODES code, coalesce obj reason)
          end in
        match merge_headers (own_props obj') res with
        | Throw e => Throw e
        | Ok res' =>
            Ok (mkRes (outHeaders res')
                      (Some (code, message, outHeaders res'))
                      (body res') (finished res') (piped res')
                      (destroyed res'))
        end
  end.

(** [res.end(chunk)]: a falsy chunk ends the response with no more
    body; a string is the body; anything else is refused. *)
Definition end_ (chunk : value) (res : ServerResponse) : result ServerResponse :=
  if negb (truthy chunk)
  then Ok (mkRes (outHeaders res) (head res) (body res) true (piped res)
                 (destroyed res))
  else match chunk with
       | VStr s =>
           Ok (mkRes (outHeaders res) (head res) (Some s) true (piped res)
                     (destroyed res))
       | _ => Throw ERR_INVALID_ARG_TYPE
       end.

(** [pipeline(stream, res, cb)]: the stream is attached; its bytes
    and its errors arrive later and are not part of this model. *)
Definition pipe_into (stream : value) (res : ServerResponse) : ServerResponse :=
  mkRes (outHeaders res) (head res) (body res) (finished res) (Some stream)
        (destroyed res).

(** [res.destroy(e)] *)
Definition destroy (e : exn) (res : ServerResponse) : ServerResponse :=
  mkRes (outHeaders res) (head res) (body res) (finished res) (piped res)
        (Some e).

(** A header and the status of the head fixed by [writeHead]. *)
Definition head_header (name : string) (res : ServerResponse) : option value :=
  match head res with
  | Some (_, _, hs) => snd <$> hs !! Str.toLowerCase name
  | None => None
  end.

Definition head_status (res : ServerResponse) : option Z :=
  match head res with
  | Some (code, _, _) => Some code
  | None => None
  end.

(** *** Timers

    [setTimeout(cb, delay)] called at time [now] arms a timer due at
    [now + delay]; a delay below 1 or above 2147483647 is replaced by
    1. A handle is cleared by removing it. The only callback armed in
    this program that the model follows is the journal flush. *)
Record Timers := mkTimers {
  next_handle : nat;
  pending : gmap nat Z
}.

Definition no_timers : Timers := mkTimers 0 ∅.

Definition clamp_delay (delay : Z) : Z :=
  if (delay <? 1) || (2147483647 <? delay) then 1 else delay.

Definition setTimeout (now delay : Z) (t : Timers) : nat * Timers :=
  (next_handle t,
   mkTimers (S (next_handle t))
            (<[next_handle t := now + clamp_delay delay]> (pending t))).

Definition clearTimeout (h : nat) (t : Timers) : Timers :=
  mkTimers (next_handle t) (delete h (pending t)).

End Node.

Import Node.

(** ** Shared data: journal entries, files, the cache key *)

Module Data.

(** inspector.ts, [IReq], [IRes] and [IEntry]. *)
Record IReq := mkIReq {
  ireq_url : string;
  ireq_method : string;
  ireq_httpVersion : string;
  ireq_headers : gmap string string
}.

Record IRes := mkIRes {
  ires_headers : value;
  ires_statusCode : value;
  ires_statusMessage : value
}.

Record IEntry := mkIEntry {
  entry_seq : nat;
  entry_req : IReq;
  entry_res : option IRes;
  entry_rule : option string
}.

(** What a path of the file system holds. Text written with
    [JSON.stringify] is kept as the object it prints ([JsonText]),
    and [JSON.parse] of it gives that object back; [PlainText] is
    text that is not JSON; [StreamedFrom] is a file a write stream is
    filling from a source; [JournalText] is the inspector's
    [index.json]. *)
Inductive file :=
| JsonText (v : value)
| PlainText (s : string)
| StreamedFrom (src : value)
| JournalText (entries : gmap nat IEntry).

Record FS := mkFS {
  files : gmap string file;
  dirs : gset string
}.

Definition empty_fs : FS := mkFS ∅ ∅.

(** [fs.existsSync(p)] *)
Definition existsSync (p : string) (d : FS) : bool :=
  bool_decide (is_Some (files d !! p)) || bool_decide (p ∈ dirs d).

(** [fs.mkdirSync(p, { recursive: true })] *)
Definition mkdirSync (p : string) (d : FS) : FS :=
  mkFS (files d) ({[p]} ∪ dirs d).

(** [fs.writeFileSync(p, data)] and [fs.createWriteStream(p)] *)
Definition writeFile (p : string) (f : file) (d : FS) : FS :=
  mkFS (<[p := f]> (files d)) (dirs d).

Definition ENOENT := Exn "Error" "ENOENT".
Definition EISDIR := Exn "Error" "EISDIR".
Definition JSON_SyntaxError := Exn "SyntaxError" "".

(** [JSON.parse(fs.readFileSync(p, { encoding: "utf8" }))] *)
Definition read_json (p : string) (d : FS) : result value :=
  match files d !! p with
  | Some (JsonText v) => Ok v
  | Some _ => Throw JSON_SyntaxError
  | None => if bool_decide (p ∈ dirs d) then Throw EISDIR else Throw ENOENT
  end.

(** [JSON.stringify] of an object literal leaves out the properties
    whose value is [undefined]. *)
Definition JSON_object (props : list (string * value)) : value :=
  VObj Object_
       (List.filter (fun kv => match snd kv with VUndefined => false | _ => true end)
                    props).

(** rules.ts, the object returned by [CacheRule.getCacheFile]. *)
Record CacheFile := mkCacheFile {
  cf_dir : string;
  headFile : string;
  bodyFile : string;
  exist : bool
}.

(** proxy.ts, [ErrorType]. *)
Inductive ErrorType := HTTP | HTTPS | CONNECT | FORWARD.

(** inspector.ts, the state of an [Inspector]. *)
Record Inspector := mkInspector {
  insp_dir : string;
  entries : gmap nat IEntry;
  nextSaveTime : Z;
  timer : option nat
}.

End Data.

Import Data.

(** ** The state the program mutates, and the calls it makes *)

Module Engine.

(** The calls made on the request, the sink, the inspector, the rule
    hooks, the upstream client and the error callback, in the order
    they are made. *)
Inductive event :=
| ReqPause
| ReqResume
| ReqPipeline
| InspectorOnRequest (seq : nat) (rule : option string)
| InspectorOnRespond (seq : nat) (res : value)
| RuleOnRequest (seq : nat) (args : value)
| RuleOnResponse (seq : nat) (res : value)
| ResSetHeader (name : string) (v : value)
| ResWriteHead (statusCode reason headers : value)
| ResEnd (chunk : value)
| ResPipeline (stream : value)
| ResDestroy (e : exn)
| OnError (type : ErrorType) (e : exn)
| FsWriteFile (path : string)
| HttpRequest (secure : bool) (target : URL) (method : string)
              (headers : gmap string string).

Record St := mkSt {
  req : IncomingMessage;
  res : ServerResponse;
  seq : nat;
  inspector : option Inspector;
  requests : gmap nat (CacheFile * value);
  disk : FS;
  now : Z;
  timers : Timers;
  trace : list event
}.

Definition set_req (r : IncomingMessage) (s : St) : St :=
  mkSt r (res s) (seq s) (inspector s) (requests s) (disk s) (now s)
       (timers s) (trace s).
Definition set_res (r : ServerResponse) (s : St) : St :=
  mkSt (req s) r (seq s) (inspector s) (requests s) (disk s) (now s)
       (timers s) (trace s).
Definition set_seq (n : nat) (s : St) : St :=
  mkSt (req s) (res s) n (inspector s) (requests s) (disk s) (now s)
       (timers s) (trace s).
Definition set_inspector (i : option Inspector) (s : St) : St :=
  mkSt (req s) (res s) (seq s) i (requests s) (disk s) (now s)
       (timers s) (trace s).
Definition set_requests (m : gmap nat (CacheFile * value)) (s : St) : St :=
  mkSt (req s) (res s) (seq s) (inspector s) m (disk s) (now s)
       (timers s) (trace s).
Definition set_disk (d : FS) (s : St) : St :=
  mkSt (req s) (res s) (seq s) (inspector s) (requests s) d (now s)
       (timers s) (trace s).
Definition set_now (t : Z) (s : St) : St :=
  mkSt (req s) (res s) (seq s) (inspector s) (requests s) (disk s) t
       (timers s) (trace s).
Definition set_timers (t : Timers) (s : St) : St :=
  mkSt (req s) (res s) (seq s) (inspector s) (requests s) (disk s) (now s)
       t (trace s).
Definition log (e : event) (s : St) : St :=
  mkSt (req s) (res s) (seq s) (inspector s) (requests s) (disk s) (now s)
       (timers s) (trace s ++ [e]).

(** A computation reads and writes the state and returns or throws;
    what it did to the state before throwing stays done. *)
Definition M (A : Type) : Type := St -> St * result A.

Definition ret {A} (a : A) : M A := fun s => (s, Ok a).

Definition throw {A} (e : exn) : M A := fun s => (s, Throw e).

Definition bind {A B} (m : M A) (k : A -> M B) : M B :=
  fun s =>
    match m s with
    | (s', Ok a) => k a s'
    | (s', Throw e) => (s', Throw e)
    end.

(** [try { m } catch (err) { h err }] *)
Definition try_catch {A} (m : M A) (h : exn -> M A) : M A :=
  fun s =>
    match m s with
    | (s', Throw e) => h e s'
    | r => r
    end.

Definition gets {A} (f : St -> A) : M A := fun s => (s, Ok (f s)).

Definition modify (f : St -> St) : M unit := fun s => (f s, Ok tt).

Definition of_result {A} (r : result A) : M A := fun s => (s, r).

(** A call on the sink: logged, then performed. *)
Definition on_res (e : event) (f : ServerResponse -> result ServerResponse)
  : M unit :=
  fun s =>
    let s1 := log e s in
    match f (res s1) with
    | Ok r => (set_res r s1, Ok tt)
    | Throw x => (s1, Throw x)
    end.

Definition on_req (e : event) (f : IncomingMessage -> IncomingMessage)
  : M unit :=
  fun s => let s1 := log e s in (set_req (f (req s1)) s1, Ok tt).

End Engine.

Import Engine.

Declare Scope js_scope.
Delimit Scope js_scope with js.
Notation "'let*' x ':=' m 'in' k" := (bind m (fun x => k))
  (at level 10, x name, m at level 100, k at level 200) : js_scope.
Notation "m ;; k" := (bind m (fun _ => k))
  (at level 100, k at level 200, right associativity) : js_scope.
Local Open Scope js_scope.

(** ** rules.ts: the built-in handlers and the cache rule *)

Module Rules.

(** The argument of a request hook. The request itself is the one in
    the state: the hook receives the very object the engine holds,
    and what it assigns to it the engine sees. *)
Record RequestArgs := mkRequestArgs {
  ra_seq : nat;
  ra_args : value
}.

Record ResponseArgs := mkResponseArgs {
  rs_seq : nat;
  rs_res : value
}.

(** A hook returns the value its promise resolves to; the waiting of
    a pending promise is not part of the model. *)
Definition OnRequest : Type := RequestArgs -> M value.
Definition OnResponse : Type := ResponseArgs -> M value.

Record IRuleHandler := mkHandler {
  onRequest : option OnRequest;
  onResponse : option OnResponse
}.

Definition TypeError := Exn "TypeError" "".

(** [o.k] where [o] may be anything: reading a property of
    [undefined] or [null] throws. *)
Definition get_prop (o : value) (k : string) : result value :=
  if is_nullish o then Throw TypeError else Ok (get o k).

Section WithPlatform.
Context `{Platform}.

(** [file]: the argument is the path of the file to serve. *)
Definition file : OnRequest := fun a =>
  let* d := gets disk in
  match ra_args a with
  | VStr path =>
      if Str.is_empty path || negb (existsSync path d)
      then ret (VObj Object_ [("statusCode", VNum 404)])
      else ret (VReadStream path)
  | _ => ret (VObj Object_ [("statusCode", VNum 404)])
  end.

(** [forward]: the argument is the URL to send the request to. *)
Definition forward : OnRequest := fun a =>
  match ra_args a with
  | VStr url =>
      let* uri := of_result (URL_parse url None) in
      let* r := gets req in
      let prefix :=
        protocol uri +:+ "://" +:+ template (req_headers r !! "host") in
      modify (set_req
                (with_url (Str.substring_from (String.length prefix)
                                              (Str.trim url)) r)) ;;
      let* r' := gets req in
      modify (set_req
                (with_headers (<["host" := host uri]> (req_headers r')) r')) ;;
      let* target := of_result (URL_parse url None) in
      ret (VURL target)
  | _ => throw TypeError
  end.

(** [CacheRule.getCacheFile] *)
Definition getCacheFile (dir : string) (r : IncomingMessage)
           (cacheByQuery : value) (d : FS) : result CacheFile :=
  match URL_parse (req_url r)
                  (Some ("http://" +:+ template (req_headers r !! "host"))) with
  | Throw e => Throw e
  | Ok url =>
      let dir' :=
        path_resolve dir
          (Str.replace_first ":" "/" (host url +:+ pathname url)) in
      let hash :=
        if truthy cacheByQuery && negb (Str.is_empty (search url))
        then md5_hex (search url) else "" in
      let name :=
        if negb (Str.is_empty hash)
        then Str.join "." [req_method r; hash] else req_method r in
      let base :=
        path_resolve dir' (if Str.is_empty name then "1" else name) in
      Ok (mkCacheFile dir' (base +:+ ".head") (base +:+ ".body")
                      (existsSync (base +:+ ".head") d))
  end.

(** [head.updateTime + ttl * 1000 >= Date.now()], for an [updateTime]
    that is a number, as the response hook writes it, and a [ttl] that
    reads as a number. An absent [updateTime] or a [ttl] that is not a
    numeral makes the sum NaN and the comparison false; the model
    answers false for every other [updateTime] as well. *)
Definition fresh (head ttl : value) (now : Z) : bool :=
  match get head "updateTime", to_number ttl with
  | VNum updateTime, Some t => now <=? updateTime + t * 1000
  | _, _ => false
  end.

(** [CacheRule.onRequest] of the rule whose directory is [dir]. *)
Definition CacheRule_onRequest (dir : string) : OnRequest := fun a =>
  let* _ := of_result (get_prop (ra_args a) "ttl") in
  let ttl := get (ra_args a) "ttl" in
  let cacheByQuery :=
    match get (ra_args a) "cacheByQuery" with
    | VUndefined => VBool false
    | v => v
    end in
  let* r := gets req in
  let* d := gets disk in
  let* f := of_result (getCacheFile dir r cacheByQuery d) in
  let record :=
    modify (fun s => set_requests (<[ra_seq a := (f, ttl)]> (requests s)) s) ;;
    ret VUndefined in
  if exist f then
    let* head := of_result (read_json (headFile f) d) in
    let* t := gets now in
    let* _ := of_result (if is_nullish ttl then Ok VUndefined
                         else get_prop head "updateTime") in
    if is_nullish ttl || fresh head ttl t then
      ret (VObj RuleResponse_
             (assign "body"
                (if existsSync (bodyFile f) d
                 then VReadStream (bodyFile f) else VStr "")
                (assign_all [] (own_props head))))
    else record
  else record.

(** [CacheRule.onResponse]. Destructuring [{ file }] out of
    [CacheRule.requests[seq]] throws when nothing is stored under
    [seq]; a stored entry always holds a file object, so the
    [if (!file) return] after it never fires. *)
Definition CacheRule_onResponse : OnResponse := fun a =>
  let* table := gets requests in
  match table !! rs_seq a with
  | None => throw TypeError
  | Some (f, _) =>
      let* d := gets disk in
      (if negb (existsSync (cf_dir f) d)
       then modify (fun s => set_disk (mkdirSync (cf_dir f) (disk s)) s)
       else ret tt) ;;
      let* t := gets now in
      modify (log (FsWriteFile (headFile f))) ;;
      modify (fun s =>
                set_disk
                  (writeFile (headFile f)
                     (JsonText
                        (JSON_object
                           [("statusCode", get (rs_res a) "statusCode");
                            ("statusMessage", get (rs_res a) "statusMessage");
                            ("headers", get (rs_res a) "headers");
                            ("updateTime", VNum t)]))
                     (disk s)) s) ;;
      (if is_readable (rs_res a)
       then modify (fun s =>
                      set_disk (writeFile (bodyFile f)
                                          (StreamedFrom (rs_res a)) (disk s)) s)
       else ret tt) ;;
      ret VUndefined
  end.

Definition CacheRule (dir : string) : IRuleHandler :=
  mkHandler (Some (CacheRule_onRequest dir)) (Some CacheRule_onResponse).

End WithPlatform.

Section Content.

(** [JSON.stringify] of an object, which the program takes from the
    runtime; it throws on an object that refers to itself. *)
Variable JSON_stringify : value -> result string.

(** [content]: the argument is the value to answer with. A number
    prints as [toString] prints an integer below 10^21. *)
Definition content : OnRequest := fun a =>
  match ra_args a with
  | VUndefined | VNull => ret VUndefined
  | VBool b => ret (VStr (if b then "true" else "false"))
  | VNum n => ret (VStr (pretty n))
  | VStr s => ret (VStr s)
  | obj => let* text := of_result (JSON_stringify obj) in ret (VStr text)
  end.

End Content.

End Rules.

Import Rules.

(** ** inspector.ts: the journal of requests and responses *)

Module Insp.

(** [path.join(dir, name)] for a plain file name. *)
Definition path_join (dir name : string) : string := dir +:+ "/" +:+ name.

Definition with_entries (m : gmap nat IEntry) (i : Inspector) : Inspector :=
  mkInspector (insp_dir i) m (nextSaveTime i) (timer i).

(** [Inspector.saveEntries], called at time [now]. *)
Definition saveEntries (now : Z) (i : Inspector) (t : Timers)
  : Inspector * Timers :=
  let timeLeft := nextSaveTime i - now in
  let next1 := if timeLeft <? 0 then 2000 else nextSaveTime i in
  let '(next2, t1) :=
    if timeLeft <=? 2000 then (next1 + 2000, t)
    else (next1, match timer i with
                 | Some h => clearTimeout h t
                 | None => t
                 end) in
  let '(h, t2) := setTimeout now next2 t1 in
  (mkInspector (insp_dir i) (entries i) next2 (Some h), t2).

(** The callback armed by [saveEntries]: the journal as it is when
    the timer fires goes to [index.json]. *)
Definition flush (s : St) : St :=
  match inspector s with
  | Some i =>
      let p := path_join (insp_dir i) "index.json" in
      set_disk (writeFile p (JournalText (entries i)) (disk s))
               (log (FsWriteFile p) s)
  | None => s
  end.

(** The handles of the timers due at or before [t]. *)
Definition due (t : Z) (tm : Timers) : list nat :=
  fst <$> List.filter (fun hd => snd hd <=? t) (map_to_list (pending tm)).

(** Time passes until [t]: every timer due by then fires once. *)
Definition run_until (t : Z) (s : St) : St :=
  foldr (fun h s' => flush (set_timers (clearTimeout h (timers s')) s'))
        (set_now t s) (due t (timers s)).

Definition save : M unit := fun s =>
  match inspector s with
  | Some i =>
      let '(i', t') := saveEntries (now s) i (timers s) in
      (set_timers t' (set_inspector (Some i') s), Ok tt)
  | None => (s, Ok tt)
  end.

(** [Inspector.onRequest(seq, req, rule)]. The entry takes the
    request's fields as they are at the call; in the source it holds
    the request's header object itself, so that a header a hook
    assigns later shows in the journal, which this model does not
    follow. The data and end listeners are attached last; what they do
    when the body flows is not part of the model. *)
Definition onRequest (n : nat) (rule : option string) : M unit := fun s =>
  match inspector s with
  | Some i =>
      let r := req s in
      let entry :=
        mkIEntry n
          (mkIReq (req_url r) (req_method r) (req_httpVersion r) (req_headers r))
          (Some (mkIRes (VObj Object_ []) VUndefined VUndefined))
          rule in
      (save ;; modify (fun s' => set_req (on_data (req s')) s'))
        (set_inspector (Some (with_entries (<[n := entry]> (entries i)) i)) s)
  | None => (s, Ok tt)
  end.

(** [Inspector.onRespond(seq, res)] *)
Definition onRespond (n : nat) (response : value) : M unit := fun s =>
  match inspector s with
  | Some i =>
      if is_nullish response then (s, Throw TypeError)
      else
        match entries i !! n with
        | None => (s, Throw TypeError)
        | Some e =>
            let headers :=
              match get response "headers" with
              | VUndefined => VObj Object_ []
              | h => h
              end in
            let e' :=
              mkIEntry (entry_seq e) (entry_req e)
                (Some (mkIRes headers (get response "statusCode")
                              (get response "statusMessage")))
                (entry_rule e) in
            let stream := or_else (get response "body") response in
            (save ;;
             if is_readable stream
             then modify (fun s' =>
                            set_disk
                              (writeFile (path_join (insp_dir i) (pretty n +:+ ".res"))
                                         (StreamedFrom stream) (disk s')) s')
             else ret tt)
              (set_inspector (Some (with_entries (<[n := e']> (entries i)) i)) s)
        end
  | None => (s, Ok tt)
  end.

End Insp.

(** ** proxy.ts: rule matching and the dispatch engine *)

Module Proxy.

(** *** [createMatcher] *)

(** A rule's [path]: a [RegExp] or a string. *)
Inductive pattern :=
| PRegExp (re : RegExp)
| PString (url : string).

(** [url.replace(/^https?:\/\//i, ``)] *)
Definition strip_scheme (url : string) : string :=
  let l := Str.toLowerCase url in
  if Str.startsWith "http://" l then Str.substring_from 7 url
  else if Str.startsWith "https://" l then Str.substring_from 8 url
  else url.

Definition hex_digit (n : nat) : ascii :=
  if (n <? 10)%nat then ascii_of_nat (48 + n) else ascii_of_nat (87 + n).

Definition backslash : ascii := ascii_of_nat 92.
Definition dquote : ascii := ascii_of_nat 34.

(** What [JSON.stringify] writes for one character of a string: the
    double quote and the backslash get a backslash, the control
    characters their short or [\u00XX] form, the rest stays. *)
Definition json_char (c : ascii) : string :=
  let n := nat_of_ascii c in
  let esc (d : ascii) := String backslash (String d EmptyString) in
  if (n =? 34)%nat then esc dquote
  else if (n =? 92)%nat then esc backslash
  else if (n =? 8)%nat then esc "b"%char
  else if (n =? 9)%nat then esc "t"%char
  else if (n =? 10)%nat then esc "n"%char
  else if (n =? 12)%nat then esc "f"%char
  else if (n =? 13)%nat then esc "r"%char
  else if (n <? 32)%nat
       then String backslash
              (String "u" (String "0" (String "0"
                 (String (hex_digit (n / 16))
                    (String (hex_digit (n mod 16)) EmptyString)))))
  else String c EmptyString.

(** [JSON.stringify(x).slice(1, -1)]: the printed string without its
    surrounding quotes. *)
Fixpoint json_body (x : string) : string :=
  match x with
  | EmptyString => EmptyString
  | String c r => json_char c +:+ json_body r
  end.

Definition createMatcher (url : pattern) : RegExp :=
  match url with
  | PRegExp re => re
  | PString u =>
      mkRegExp
        (Str.join ".*?" (json_body <$> Str.split "*" (strip_scheme u)))
        ""
  end.

(** *** Rules *)

Record Rule := mkRule {
  name : option string;
  args : value;
  match_ : IncomingMessage -> result bool;
  handler : option IRuleHandler
}.

Section WithPlatform.
Context `{Platform}.

(** The [match] that [addRule] gives a rule. *)
Definition rule_match (path : pattern) (r : IncomingMessage) : result bool :=
  RegExp_test (createMatcher path)
              (template (req_headers r !! "host") +:+ req_url r).

(** [addRule] *)
Definition addRule (path : pattern) (args : value) (name : option string)
           (onRequest : option OnRequest) (onResponse : option OnResponse)
           (handler : option IRuleHandler) (rules : list Rule)
  : list Rule :=
  rules ++
    [mkRule name args (rule_match path)
            (Some (match handler with
                   | Some h => h
                   | None => mkHandler onRequest onResponse
                   end))].

(** [file], [forward] and [cache], with their default names. *)
Definition add_file (path : pattern) (filePath : value) (rules : list Rule) :=
  addRule path filePath (Some "file") (Some file) None None rules.

Definition add_forward (path : pattern) (url : value) (rules : list Rule) :=
  addRule path url (Some "forward") (Some forward) None None rules.

Definition add_cache (cacheDir : string) (path : pattern)
           (ttl cacheByQuery : value) (rules : list Rule) :=
  addRule path (VObj Object_ [("ttl", ttl); ("cacheByQuery", cacheByQuery)])
          (Some "cache") None None (Some (CacheRule cacheDir)) rules.

(** [content], with its default name. *)
Definition add_content (JSON_stringify : value -> result string)
           (path : pattern) (v : value) (rules : list Rule) :=
  addRule path v (Some "content") (Some (content JSON_stringify)) None None rules.

(** [this.rules.find((x) => x.match!(req))] *)
Fixpoint find_rule (rules : list Rule) (r : IncomingMessage)
  : result (option Rule) :=
  match rules with
  | [] => Ok None
  | x :: rest =>
      match match_ x r with
      | Throw e => Throw e
      | Ok true => Ok (Some x)
      | Ok false => find_rule rest r
      end
  end.

(** *** The dispatch engine *)

(** [handleError], for an error that is there. *)
Definition handleError (e : exn) : M unit :=
  on_res (ResDestroy e) (fun r => Ok (destroy e r)) ;;
  modify (log (OnError FORWARD e)).

Definition inspector_onRequest (n : nat) (rule : option string) : M unit :=
  let* i := gets inspector in
  match i with
  | Some _ => modify (log (InspectorOnRequest n rule)) ;; Insp.onRequest n rule
  | None => ret tt
  end.

Definition inspector_onRespond (n : nat) (response : value) : M unit :=
  let* i := gets inspector in
  match i with
  | Some _ =>
      modify (log (InspectorOnRespond n response)) ;; Insp.onRespond n response
  | None => ret tt
  end.

(** [SimpleProxy.onResponse]: the response emitter. *)
Definition onResponse (n : nat) (response : value) : M unit :=
  try_catch
    (let statusCode := coalesce (get response "statusCode") (VNum 500) in
     let statusMessage := coalesce (get response "statusMessage") (VStr "") in
     let headers := or_else (get response "headers") (VObj Object_ []) in
     on_res (ResWriteHead statusCode statusMessage headers)
            (writeHead statusCode statusMessage headers) ;;
     inspector_onRespond n response ;;
     let stream := or_else (get response "body") response in
     if is_readable stream
     then on_res (ResPipeline stream) (fun r => Ok (pipe_into stream r))
     else on_res (ResEnd (get response "body")) (end_ (get response "body")))
    (fun err => handleError err ;; inspector_onRespond n (VError err)).

(** [SimpleProxy.fetch], up to the request being on its way; the
    target and the method and headers handed to [http.request] or
    [https.request] are what the upstream server receives. *)
Definition fetch (n : nat) (url : URL) (rule : option Rule) : M unit :=
  let* r := gets req in
  modify (log (HttpRequest (Str.startsWith "https" (protocol url)) url
                           (req_method r) (req_headers r))) ;;
  on_req ReqPipeline resume ;;
  on_req ReqResume resume.

(** The callback [fetch] gives the upstream request, run when the
    upstream response arrives. *)
Definition upstream_response (n : nat) (rule : option Rule) (response : value)
  : M unit :=
  match rule with
  | Some (mkRule _ _ _ (Some (mkHandler _ (Some hook)))) =>
      modify (log (RuleOnResponse n response)) ;;
      let* _ := hook (mkResponseArgs n response) in ret tt
  | _ => ret tt
  end ;;
  onResponse n response.

(** [rule?.handler?.onRequest?.({ seq, req, args: rule?.args })] *)
Definition call_onRequest (n : nat) (rule : option Rule) : M value :=
  match rule with
  | Some (mkRule _ a _ (Some (mkHandler (Some hook) _))) =>
      modify (log (RuleOnRequest n a)) ;; hook (mkRequestArgs n a)
  | _ => ret VUndefined
  end.

(** What becomes of a hook result that is neither [false], nor
    nullish or [true], nor a URL. *)
Definition synth_response (rt : value) : value :=
  let response :=
    if is_rule_response rt then rt
    else VObj Object_ [("body", rt); ("statusCode", VNum 200)] in
  let response :=
    if is_nullish (get response "statusCode")
    then set response "statusCode" (VNum 200) else response in
  if is_error rt then set response "statusCode" (VNum 500) else response.

(** The [then] callback of [forwardRequest]: the coercion of the
    hook result [rt]. *)
Definition coerce (n : nat) (url : URL) (rule : option Rule) (rt : value)
  : M unit :=
  match rt with
  | VBool false => ret tt
  | _ =>
      if is_nullish rt || match rt with VBool true => true | _ => false end
         || is_url rt
      then
        let targetUrl := match rt with VURL u => u | _ => url end in
        fetch n targetUrl rule
      else
        on_req ReqResume resume ;;
        let response := synth_response rt in
        on_res (ResSetHeader "Access-Control-Allow-Origin" (VStr "*"))
               (setHeader "Access-Control-Allow-Origin" (VStr "*")) ;;
        onResponse n response
  end.

Definition preflight_headers : value :=
  VObj Object_ [("Access-Control-Allow-Headers", VStr "*");
                ("Access-Control-Allow-Methods", VStr "*");
                ("Access-Control-Allow-Origin", VStr "*")].

(** [SimpleProxy.forwardRequest] *)
Definition forwardRequest (rules : list Rule) (protocol : string) : M unit :=
  let* r := gets req in
  let* url :=
    of_result
      (URL_parse (req_url r)
                 (Some (protocol +:+ "://" +:+ template (req_headers r !! "host")))) in
  let* rule := of_result (find_rule rules r) in
  modify (fun s => set_seq (S (seq s)) s) ;;
  let* n := gets seq in
  on_req ReqPause pause ;;
  inspector_onRequest n (match rule with Some x => name x | None => None end) ;;
  let* r' := gets req in
  if match rule with Some _ => true | None => false end
     && String.eqb (req_method r') "OPTIONS"
  then
    on_req ReqResume resume ;;
    on_res (ResWriteHead (VNum 204) preflight_headers VUndefined)
           (writeHead (VNum 204) preflight_headers VUndefined) ;;
    on_res (ResEnd VUndefined) (end_ VUndefined)
  else
    let* rt := call_onRequest n rule in
    coerce n url rule rt.

End WithPlatform.

(** [addCustomRule] *)
Definition addCustomRule (rule : Rule) (rules : list Rule) : list Rule :=
  rules ++ [rule].

(** The state in which a request arrives at a proxy that has handled
    [count] requests so far. *)
Definition arrival (r : IncomingMessage) (count : nat) (i : option Inspector)
           (table : gmap nat (CacheFile * value)) (d : FS) (t : Z)
           (tm : Timers) : St :=
  mkSt r fresh_response count i table d t tm [].

End Proxy.

(** ** The command line *)

Module Cli.

Import Proxy.


Definition newline : ascii := ascii_of_nat 10.

(** The lines of the rule file that become rules:
    [text.split("\n").filter((x) => x.trim().length)]. *)
Definition rule_lines (text : string) : list string :=
  List.filter (fun x => negb (Str.is_empty (Str.trim x))) (Str.split newline text).

(** The rule strings: those given as options, then those of the rule
    file; [rule_file] is the text of the file when one is given. The
    program exits when the file does not exist. *)
Definition rule_strings (rule : list string) (rule_file : option string)
  : list string :=
  (rule ++ match rule_file with Some text => rule_lines text | None => [] end)%list.

(** A character the dot of a pattern without flags does not match. *)
Definition is_line_terminator (c : ascii) : bool :=
  let n := nat_of_ascii c in (n =? 10)%nat || (n =? 13)%nat.

(** The text up to a closing parenthesis that ends [s], when no line
    ends before it. *)
Fixpoint before_closing (s : string) : option string :=
  match s with
  | EmptyString => None
  | String c EmptyString => if Ascii.eqb c ")" then Some EmptyString else None
  | String c r =>
      if is_line_terminator c then None else String c <$> before_closing r
  end.

(** The group of the pattern that recognises a path written between
    parentheses: the text between an opening parenthesis that starts
    [path] and a closing one that ends it. *)
Definition group (path : string) : option string :=
  match path with
  | String c r => if Ascii.eqb c "(" then before_closing r else None
  | EmptyString => None
  end.

(** The [n]th element of a destructured array. *)
Definition element (n : nat) (pieces : list string) : option string :=
  nth_error pieces n.

Definition or_undefined (o : option string) : value :=
  match o with Some s => VStr s | None => VUndefined end.

(** A rule string taken apart: the name of the rule, the pattern
    ([None] for [undefined]) and the argument. *)
Record RuleString := mkRuleString {
  rule : string;
  url : option pattern;
  args : value
}.

Section WithPlatform.
Context `{Platform}.

(** [new RegExp(source)]: a [SyntaxError] when the source does not
    compile, which is when testing the pattern throws. *)
Definition new_RegExp (source : string) : result RegExp :=
  match RegExp_test (mkRegExp source "") "" with
  | Throw e => Throw e
  | Ok _ => Ok (mkRegExp source "")
  end.

(** The head of the callback that registers the rule strings. *)
Definition parse (r : string) : result RuleString :=
  let pieces := Str.split "|" r in
  let rule := match element 0 pieces with Some s => s | None => "" end in
  let path := element 1 pieces in
  let args := or_undefined (element 2 pieces) in
  let reg := match path with
             | Some p => group p
             | None => None
             end in
  match reg with
  | Some (String c g) =>
      match new_RegExp (String c g) with
      | Ok re => Ok (mkRuleString rule (Some (PRegExp re)) args)
      | Throw e => Throw e
      end
  | _ => Ok (mkRuleString rule (PString <$> path) args)
  end.

End WithPlatform.

End Cli.

(** ** A reference platform

    An executable rendering of the runtime services on the inputs the
    examples below use. It follows the WHATWG URL standard, ECMAScript
    regular expressions, RFC 1321 and POSIX [path.resolve] on a
    fragment; outside the fragment it throws [Unmodelled], which the
    real runtime does not. The general theorems do not depend on it:
    they hold for every [Platform]. *)

Module Runtime.

Definition Unmodelled := Exn "Unmodelled" "".

Definition char_in (cs : string) (c : ascii) : bool :=
  existsb (Ascii.eqb c) (list_ascii_of_string cs).

(** *** URLs: [scheme://host[:port]/path?query#fragment] and
    references relative to an origin. Paths are taken as written:
    dot segments and percent-encoding are not normalised. *)

Definition is_scheme_char (c : ascii) : bool :=
  Str.is_alpha c || Str.is_digit c || char_in "+-." c.

(** Path, search and hash of what follows the authority. *)
Definition parse_tail (s : string) : string * string * string :=
  let '(before, h) := Str.break (Ascii.eqb "#") s in
  let '(p, q) := Str.break (Ascii.eqb "?") before in
  (p,
   if String.eqb q "?" then "" else q,
   if String.eqb h "#" then "" else h).

Definition default_port (protocol : string) : string :=
  if String.eqb protocol "http:" then ":80"
  else if String.eqb protocol "https:" then ":443"
  else ":".

Definition drop_default_port (protocol authority : string) : string :=
  let '(h, p) := Str.break (Ascii.eqb ":") authority in
  if String.eqb p (default_port protocol) || String.eqb p ":" then h
  else authority.

Inductive parsed := Absolute (u : URL) | Relative | Unsupported.

Definition parse_absolute (s : string) : parsed :=
  let '(scheme, rest) := Str.break (fun c => negb (is_scheme_char c)) s in
  match scheme, rest with
  | String c _, String ":" after =>
      if negb (Str.is_alpha c) then Relative
      else if negb (Str.startsWith "//" after) then Unsupported
      else
        let '(authority, tail) :=
          Str.break (char_in "/?#") (Str.substring_from 2 after) in
        if Str.is_empty authority || char_in authority "@"%char
        then Unsupported
        else
          let '(p, q, h) := parse_tail tail in
          let proto := Str.toLowerCase scheme +:+ ":" in
          Absolute
            (mkURL proto
                   (drop_default_port proto (Str.toLowerCase authority))
                   (if Str.is_empty p then "/" else p) q h)
  | _, _ => Relative
  end.

Definition URL_parse (input : string) (base : option string) : result URL :=
  let input := Str.trim input in
  if char_in input (ascii_of_nat 92) then Throw Unmodelled
  else
    match parse_absolute input with
    | Absolute u => Ok u
    | Unsupported => Throw Unmodelled
    | Relative =>
        match base with
        | None => Throw ERR_INVALID_URL
        | Some b =>
            match parse_absolute (Str.trim b) with
            | Absolute bu =>
                if Str.startsWith "//" input
                   || negb (String.eqb (pathname bu) "/")
                then Throw Unmodelled
                else
                  let '(p, q, h) := parse_tail input in
                  Ok (mkURL (protocol bu) (host bu)
                            (if Str.startsWith "/" p then p else "/" +:+ p)
                            q h)
            | _ => Throw ERR_INVALID_URL
            end
        end
    end.

(** *** [path.resolve(from, to)], the working directory being the
    root. *)

Definition step_segment (acc : list string) (seg : string) : list string :=
  if Str.is_empty seg || String.eqb seg "." then acc
  else if String.eqb seg ".." then removelast acc
  else (acc ++ [seg])%list.

Definition path_resolve (from to : string) : string :=
  let segs :=
    if Str.startsWith "/" to then Str.split "/" to
    else (Str.split "/" from ++ Str.split "/" to)%list in
  "/" +:+ Str.join "/" (fold_left step_segment segs []).

(** *** Regular expressions: literals, [.], escaped punctuation,
    the classes [\d \w \s] and their complements, groups, [|], the
    quantifiers [* + ?] (greedy or lazy, which [test] cannot tell
    apart), [^] and [$], with no flags. *)

Inductive re :=
| Void
| Eps
| Sym (p : ascii -> bool)
| Bol
| Eol
| Cat (a b : re)
| Alt (a b : re)
| Star (a : re).

Definition is_word (c : ascii) : bool :=
  Str.is_alpha c || Str.is_digit c || Ascii.eqb c "_".

Definition is_line_end (c : ascii) : bool :=
  let n := nat_of_ascii c in (n =? 10)%nat || (n =? 13)%nat.

(** What a backslash followed by [c] stands for. *)
Definition escape (c : ascii) : option re :=
  if Ascii.eqb c "d" then Some (Sym Str.is_digit)
  else if Ascii.eqb c "D" then Some (Sym (fun x => negb (Str.is_digit x)))
  else if Ascii.eqb c "w" then Some (Sym is_word)
  else if Ascii.eqb c "W" then Some (Sym (fun x => negb (is_word x)))
  else if Ascii.eqb c "s" then Some (Sym Str.is_space)
  else if Ascii.eqb c "S" then Some (Sym (fun x => negb (Str.is_space x)))
  else if Ascii.eqb c "n" then Some (Sym (Ascii.eqb (ascii_of_nat 10)))
  else if Ascii.eqb c "r" then Some (Sym (Ascii.eqb (ascii_of_nat 13)))
  else if Ascii.eqb c "t" then Some (Sym (Ascii.eqb (ascii_of_nat 9)))
  else if Ascii.eqb c "f" then Some (Sym (Ascii.eqb (ascii_of_nat 12)))
  else if Ascii.eqb c "v" then Some (Sym (Ascii.eqb (ascii_of_nat 11)))
  else if is_word c then None
  else Some (Sym (Ascii.eqb c)).

Definition is_quantifier (c : ascii) : bool := char_in "*+?" c.

(** The quantifier after an atom, if any. *)
Definition quantified (a : re) (s : list ascii) : option (re * list ascii) :=
  let lazy_mark (r : re) (rest : list ascii) :=
    let rest' := match rest with
                 | "?"%char :: more => more
                 | _ => rest
                 end in
    match rest' with
    | c :: _ => if is_quantifier c then None else Some (r, rest')
    | [] => Some (r, rest')
    end in
  match s with
  | "*"%char :: rest => lazy_mark (Star a) rest
  | "+"%char :: rest => lazy_mark (Cat a (Star a)) rest
  | "?"%char :: rest => lazy_mark (Alt a Eps) rest
  | _ => Some (a, s)
  end.

Fixpoint parse_alt (fuel : nat) (s : list ascii) : option (re * list ascii) :=
  match fuel with
  | O => None
  | S f =>
      match parse_cat f s with
      | Some (a, "|"%char :: rest) =>
          match parse_alt f rest with
          | Some (b, rest') => Some (Alt a b, rest')
          | None => None
          end
      | r => r
      end
  end
with parse_cat (fuel : nat) (s : list ascii) : option (re * list ascii) :=
  match fuel with
  | O => None
  | S f =>
      match s with
      | [] => Some (Eps, s)
      | c :: _ =>
          if char_in ")|" c then Some (Eps, s)
          else
            match parse_atom f s with
            | Some (a, rest) =>
                match quantified a rest with
                | Some (q, rest') =>
                    match parse_cat f rest' with
                    | Some (b, rest'') => Some (Cat q b, rest'')
                    | None => None
                    end
                | None => None
                end
            | None => None
            end
      end
  end
with parse_atom (fuel : nat) (s : list ascii) : option (re * list ascii) :=
  match fuel with
  | O => None
  | S f =>
      match s with
      | [] => None
      | "("%char :: "?"%char :: ":"%char :: rest
      | "("%char :: rest =>
          match rest with
          | "?"%char :: _ => None
          | _ =>
              match parse_alt f rest with
              | Some (a, ")"%char :: rest') => Some (a, rest')
              | _ => None
              end
          end
      | "."%char :: rest => Some (Sym (fun x => negb (is_line_end x)), rest)
      | "^"%char :: rest => Some (Bol, rest)
      | "$"%char :: rest => Some (Eol, rest)
      | c :: rest =>
          if Ascii.eqb c (ascii_of_nat 92) then
            match rest with
            | e :: rest' =>
                match escape e with
                | Some a => Some (a, rest')
                | None => None
                end
            | [] => None
            end
          else if char_in "*+?[]{}" c then None
          else Some (Sym (Ascii.eqb c), rest)
      end
  end.

Definition compile (src : string) : option re :=
  let cs := list_ascii_of_string src in
  match parse_alt (4 * List.length cs + 4) cs with
  | Some (r, []) => Some r
  | _ => None
  end.

(** Matching by derivatives. [first] says that the position is the
    start of the input. *)
Fixpoint nullable (first last : bool) (r : re) : bool :=
  match r with
  | Void => false
  | Eps => true
  | Sym _ => false
  | Bol => first
  | Eol => last
  | Cat a b => nullable first last a && nullable first last b
  | Alt a b => nullable first last a || nullable first last b
  | Star _ => true
  end.

Definition cat (a b : re) : re :=
  match a, b with
  | Void, _ | _, Void => Void
  | Eps, _ => b
  | _, _ => Cat a b
  end.

Definition alt (a b : re) : re :=
  match a, b with
  | Void, _ => b
  | _, Void => a
  | _, _ => Alt a b
  end.

Fixpoint deriv (first : bool) (c : ascii) (r : re) : re :=
  match r with
  | Void | Eps | Bol | Eol => Void
  | Sym p => if p c then Eps else Void
  | Cat a b =>
      alt (cat (deriv first c a) b)
          (if nullable first false a then deriv first c b else Void)
  | Alt a b => alt (deriv first c a) (deriv first c b)
  | Star a => cat (deriv first c a) (Star a)
  end.

(** [r] matches the whole of [s]. *)
Fixpoint matches (first : bool) (r : re) (s : string) : bool :=
  match s with
  | EmptyString => nullable first true r
  | String c rest => matches false (deriv first c r) rest
  end.

(** [r] matches somewhere in [s]. *)
Fixpoint search_from (first : bool) (r : re) (s : string) : bool :=
  matches first (Cat r (Star (Sym (fun _ => true)))) s
  || match s with
     | EmptyString => false
     | String _ rest => search_from false r rest
     end.

Definition RegExp_test (r : RegExp) (s : string) : result bool :=
  if negb (Str.is_empty (flags r)) then Throw Unmodelled
  else match compile (source r) with
       | Some e => Ok (search_from true e s)
       | None => Throw Unmodelled
       end.

(** *** MD5 (RFC 1321), printed in lower-case hexadecimal *)

Definition mask32 : Z := 4294967295.

Definition add32 (a b : Z) : Z := Z.land (a + b) mask32.

Definition rotl32 (x : Z) (n : Z) : Z :=
  Z.lor (Z.land (Z.shiftl x n) mask32) (Z.shiftr x (32 - n)).

Definition not32 (x : Z) : Z := Z.lxor x mask32.

(** [floor(2^32 * |sin(i + 1)|)] for [i] from 0 to 63. *)
Definition md5_K : list Z :=
  [3614090360; 3905402710; 606105819; 3250441966;
   4118548399; 1200080426; 2821735955; 4249261313;
   1770035416; 2336552879; 4294925233; 2304563134;
   1804603682; 4254626195; 2792965006; 1236535329;
   4129170786; 3225465664; 643717713; 3921069994;
   3593408605; 38016083; 3634488961; 3889429448;
   568446438; 3275163606; 4107603335; 1163531501;
   2850285829; 4243563512; 1735328473; 2368359562;
   4294588738; 2272392833; 1839030562; 4259657740;
   2763975236; 1272893353; 4139469664; 3200236656;
   681279174; 3936430074; 3572445317; 76029189;
   3654602809; 3873151461; 530742520; 3299628645;
   4096336452; 1126891415; 2878612391; 4237533241;
   1700485571; 2399980690; 4293915773; 2240044497;
   1873313359; 4264355552; 2734768916; 1309151649;
   4149444226; 3174756917; 718787259; 3951481745].

Definition md5_S : list Z :=
  [7; 12; 17; 22; 7; 12; 17; 22; 7; 12; 17; 22; 7; 12; 17; 22;
   5; 9; 14; 20; 5; 9; 14; 20; 5; 9; 14; 20; 5; 9; 14; 20;
   4; 11; 16; 23; 4; 11; 16; 23; 4; 11; 16; 23; 4; 11; 16; 23;
   6; 10; 15; 21; 6; 10; 15; 21; 6; 10; 15; 21; 6; 10; 15; 21].

(** The message, the byte 128, zeros up to 56 modulo 64, and the
    length in bits on eight bytes, least significant first. *)
Definition le_bytes (count : nat) (x : Z) : list Z :=
  (fun i => Z.land (Z.shiftr x (8 * Z.of_nat i)) 255) <$> List.seq 0 count.

Definition md5_pad (msg : list Z) : list Z :=
  let len := List.length msg in
  let zeros := ((119 - len mod 64) mod 64)%nat in
  (msg ++ [128] ++ repeat 0 zeros ++ le_bytes 8 (8 * Z.of_nat len))%list.

Definition le_word (bytes : list Z) : Z :=
  fold_right (fun b acc => b + 256 * acc) 0 bytes.

(** The sixteen words of the block that starts at byte [off]. *)
Definition md5_block (bytes : list Z) (off : nat) : list Z :=
  (fun i => le_word (firstn 4 (skipn (off + 4 * i) bytes))) <$> List.seq 0 16.

Definition md5_round (M : list Z) (st : Z * Z * Z * Z) (i : nat)
  : Z * Z * Z * Z :=
  let '(A, B, C, D) := st in
  let '(F, g) :=
    if (i <? 16)%nat
    then (Z.lor (Z.land B C) (Z.land (not32 B) D), i)
    else if (i <? 32)%nat
    then (Z.lor (Z.land D B) (Z.land (not32 D) C), ((5 * i + 1) mod 16)%nat)
    else if (i <? 48)%nat
    then (Z.lxor (Z.lxor B C) D, ((3 * i + 5) mod 16)%nat)
    else (Z.lxor C (Z.lor B (not32 D)), ((7 * i) mod 16)%nat) in
  let F' := add32 (add32 (add32 F A) (nth i md5_K 0)) (nth g M 0) in
  (D, add32 B (rotl32 F' (nth i md5_S 0)), B, C).

Definition md5_compress (bytes : list Z) (st : Z * Z * Z * Z) (blk : nat)
  : Z * Z * Z * Z :=
  let M := md5_block bytes (64 * blk) in
  let '(A, B, C, D) := st in
  let '(A', B', C', D') := fold_left (md5_round M) (List.seq 0 64) st in
  (add32 A A', add32 B B', add32 C C', add32 D D').

Definition hex_byte (b : Z) : string :=
  String (Proxy.hex_digit (Z.to_nat (b / 16)))
         (String (Proxy.hex_digit (Z.to_nat (b mod 16))) EmptyString).

Definition md5_hex (s : string) : string :=
  let bytes :=
    md5_pad ((fun c => Z.of_nat (nat_of_ascii c)) <$> list_ascii_of_string s) in
  let '(A, B, C, D) :=
    fold_left (md5_compress bytes) (List.seq 0 (List.length bytes / 64))
              (1732584193, 4023233417, 2562383102, 271733878) in
  String.concat ""
    (hex_byte <$> (le_bytes 4 A ++ le_bytes 4 B ++ le_bytes 4 C ++ le_bytes 4 D)%list).

(** The reference platform. *)
#[export] Instance platform : Platform :=
  {| JS.URL_parse := URL_parse;
     JS.RegExp_test := RegExp_test;
     JS.md5_hex := md5_hex;
     JS.path_resolve := path_resolve |}.

End Runtime.

Import Proxy.

(** ** The specification's vocabulary *)

Module Spec.

(** The tagged union the specification calls [RuleResult]; [Fail] is
    a [Synth] whose value is an error. *)
Inductive outcome :=
| Suppress
| Passthrough
| Redirect (u : URL)
| Synth.

(** The coercion step of the specification: [false] suppresses,
    [null], [undefined] and [true] pass through, a URL redirects,
    everything else is synthesized. *)
Definition outcome_of (rt : value) : outcome :=
  match rt with
  | VBool false => Suppress
  | VUndefined | VNull | VBool true => Passthrough
  | VURL u => Redirect u
  | _ => Synth
  end.

(** The status the specification gives a synthesized response: 500
    for an error, the response's own status if it has one, 200
    otherwise. *)
Definition expected_status (rt : value) : value :=
  if is_error rt then VNum 500
  else if is_rule_response rt
       then coalesce (get rt "statusCode") (VNum 200)
       else VNum 200.

Definition ACAO : string := "Access-Control-Allow-Origin".

(** The header object [hs] has a property whose name is [name] up to
    letter case. *)
Definition names_header (name : string) (hs : value) : bool :=
  existsb (fun kv => String.eqb (Str.toLowerCase (fst kv)) (Str.toLowerCase name))
          (own_props hs).

(** The own headers of a synthesized response: those of a
    [RuleResponse]; a wrapped value has none. *)
Definition own_headers (rt : value) : list (string * value) :=
  if is_rule_response rt then own_props (get rt "headers") else [].

(** The last property of [props] whose name is [name] up to letter
    case. *)
Fixpoint last_named (name : string) (props : list (string * value))
  : option (string * value) :=
  match props with
  | [] => None
  | (k, v) :: rest =>
      match last_named name rest with
      | Some kv => Some kv
      | None =>
          if negb (Str.is_empty k)
             && String.eqb (Str.toLowerCase k) (Str.toLowerCase name)
          then Some (k, v) else None
      end
  end.

(** The origin header of a synthesized response: its own if it names
    one, the permissive one otherwise. *)
Definition origin_header (rt : value) : string * value :=
  match last_named ACAO (own_headers rt) with
  | Some kv => kv
  | None => (ACAO, VStr "*")
  end.

(** A header object [writeHead] accepts: no property, save one with
    an empty name, is [undefined]. *)
Definition headers_defined (props : list (string * value)) : bool :=
  forallb (fun kv => Str.is_empty (fst kv)
                     || match snd kv with VUndefined => false | _ => true end)
          props.





Definition all_chars (p : ascii -> bool) (x : string) : bool :=
  forallb p (list_ascii_of_string x).

(** The arguments [SimpleProxy.cache] gives its rule. *)
Definition cache_args (ttl cacheByQuery : value) : value :=
  VObj Object_ [("ttl", ttl); ("cacheByQuery", cacheByQuery)].

(** [cacheByQuery = false] by default. *)
Definition by_query (cacheByQuery : value) : value :=
  match cacheByQuery with VUndefined => VBool false | v => v end.

Section Keys.
Context `{Platform}.

(** The directory of a cache entry: host and path under the cache
    root, the first colon (the one before a port) turned into a
    slash. *)
Definition entry_dir (dir : string) (u : URL) : string :=
  path_resolve dir (Str.replace_first ":" "/" (host u +:+ pathname u)).

(** The base name of the entry's files: the method, followed by a
    dot and the digest of the query when queries count and there
    is one. *)
Definition base_name (method : string) (u : URL) (cacheByQuery : bool)
  : string :=
  if cacheByQuery && negb (Str.is_empty (search u))
  then method +:+ "." +:+ md5_hex (search u)
  else method.

Definition entry_file (dir : string) (method : string) (u : URL)
           (cacheByQuery : bool) (d : FS) : CacheFile :=
  let base := path_resolve (entry_dir dir u) (base_name method u cacheByQuery) in
  mkCacheFile (entry_dir dir u) (base +:+ ".head") (base +:+ ".body")
              (existsSync (base +:+ ".head") d).

(** The URL [getCacheFile] makes of a request. *)
Definition cache_url (r : IncomingMessage) : result URL :=
  URL_parse (req_url r)
            (Some ("http://" +:+ template (req_headers r !! "host"))).

(** The URL [forwardRequest] makes of a request that came in over
    [proto]. *)
Definition request_url (proto : string) (r : IncomingMessage) : result URL :=
  URL_parse (req_url r)
            (Some (proto +:+ "://" +:+ template (req_headers r !! "host"))).

End Keys.


(** The calls logged on the inspector when a request comes in. *)
Definition inspector_saw (i : option Inspector) (n : nat) (rule : option Rule)
  : list event :=
  match i with
  | Some _ =>
      [InspectorOnRequest n (match rule with Some x => name x | None => None end)]
  | None => []
  end.

(** The state once the request is counted, paused and reported to
    the inspector: where [forwardRequest] stands when it looks at
    the method and calls the hook. *)
Definition intercepted (rule : option Rule) (s : St) : St :=
  fst ((modify (fun s' => set_seq (S (seq s')) s') ;;
        on_req ReqPause pause ;;
        inspector_onRequest (S (seq s))
          (match rule with Some x => name x | None => None end)) s).

(** The answer to a preflight, as [forwardRequest] writes it. *)
Definition preflight : M unit :=
  on_req ReqResume resume ;;
  on_res (ResWriteHead (VNum 204) preflight_headers VUndefined)
         (writeHead (VNum 204) preflight_headers VUndefined) ;;
  on_res (ResEnd VUndefined) (end_ VUndefined).


(** The header block holding the permissive origin header only. *)
Definition acao_only : gmap string (string * value) :=
  {[ "access-control-allow-origin" := (ACAO, VStr "*") ]}.

(** A call on the response sink. *)
Definition on_sink (e : event) : bool :=
  match e with
  | ResSetHeader _ _ | ResWriteHead _ _ _ | ResEnd _ | ResPipeline _
  | ResDestroy _ => true
  | _ => false
  end.

(** A call that sets the request body flowing. *)
Definition resumes (e : event) : bool :=
  match e with ReqResume | ReqPipeline => true | _ => false end.

(** The opening of an upstream request. *)
Definition is_fetch (e : event) : bool :=
  match e with HttpRequest _ _ _ _ => true | _ => false end.


(** A write of the journal of the inspector that works under [dir]. *)
Definition is_journal_write (dir : string) (e : event) : bool :=
  match e with
  | FsWriteFile p => String.eqb p (Insp.path_join dir "index.json")
  | _ => false
  end.

(** How many times that journal was flushed. *)
Definition flushes (dir : string) (s : St) : nat :=
  List.length (List.filter (is_journal_write dir) (trace s)).

(** Every armed timer has a handle below the next one to be given. *)
Definition handles_fresh (t : Timers) : Prop :=
  forall h due, pending t !! h = Some due -> (h < next_handle t)%nat.

(** The journal updates of a burst: [saveEntries] once at each of
    the given times, in order. *)
Fixpoint updates (times : list Z) (i : Inspector) (t : Timers)
  : Inspector * Timers :=
  match times with
  | [] => (i, t)
  | now :: rest =>
      let '(i', t') := Insp.saveEntries now i t in updates rest i' t'
  end.

End Spec.

Import Spec.

(** ** Further notions used in the properties *)

Module Notions.

(** The request numbered [n] has its entry in the journal, if there is
    a journal. *)
Definition journalled (n : nat) (s : St) : Prop :=
  forall i, inspector s = Some i -> is_Some (entries i !! n).

(** The call logged on the inspector when a response is emitted. *)
Definition inspector_heard (i : option Inspector) (n : nat) (v : value)
  : list event :=
  match i with Some _ => [InspectorOnRespond n v] | None => [] end.

(** The response hook of a rule, if it has one. *)
Definition response_hook (rule : option Rule) : option OnResponse :=
  match rule with
  | Some (mkRule _ _ _ (Some (mkHandler _ (Some hook)))) => Some hook
  | _ => None
  end.



(** The head the cache rule's response hook writes for [response] at
    time [t], as [JSON.parse] reads it back. *)
Definition head_written (response : value) (t : Z) : value :=
  JSON_object [("statusCode", get response "statusCode");
               ("statusMessage", get response "statusMessage");
               ("headers", get response "headers");
               ("updateTime", VNum t)].

(** The disk once the response hook has stored [response] in the
    cache file [f] at time [t]. *)
Definition disk_written (f : CacheFile) (response : value) (t : Z) (d : FS)
  : FS :=
  let d1 := if existsSync (cf_dir f) d then d else mkdirSync (cf_dir f) d in
  let d2 := writeFile (headFile f) (JsonText (head_written response t)) d1 in
  if is_readable response
  then writeFile (bodyFile f) (StreamedFrom response) d2 else d2.

(** A call of the error callback. *)
Definition is_error_report (e : event) : bool :=
  match e with OnError _ _ => true | _ => false end.

(** No character of [x] is [c]. *)
Definition free_of (c : ascii) (x : string) : bool :=
  forallb (fun d => negb (Ascii.eqb d c)) (list_ascii_of_string x).

End Notions.
Import Notions.

(** ** Concrete requests, rules and disks used as examples *)

Module Scenario.

Import Runtime.

Definition request (method url host : string) : IncomingMessage :=
  mkReq url method "1.1" {[ "host" := host ]} None.

(** A wall-clock time in epoch milliseconds. *)
Definition epoch : Z := 1700000000000.

(** A proxy with no inspector, an empty cache and an empty disk. *)
Definition idle (r : IncomingMessage) : St :=
  arrival r 0 None ∅ empty_fs epoch no_timers.

(** An inspector constructed at [epoch], journalling under [/insp]. *)
Definition journal : Inspector := mkInspector "/insp" ∅ epoch None.

(** A proxy whose inspector [journal] is ten seconds old, on a disk
    that holds [/srv/a.js]. *)
Definition watched (r : IncomingMessage) : St :=
  arrival r 0 (Some journal) ∅
          (writeFile "/srv/a.js" (PlainText "let a") empty_fs)
          (epoch + 10000) no_timers.

(** [file|/a.js|/srv/a.js] *)
Definition served_rules : list Rule :=
  add_file (PString "/a.js") (VStr "/srv/a.js") [].

(** [file|/a.js|/missing] *)
Definition file_rules : list Rule :=
  add_file (PString "/a.js") (VStr "/missing") [].

(** The rule string [forward], pattern [/api/] followed by a group
    of any characters, target [https://upstream/v2/]. *)
Definition forward_rules : list Rule :=
  add_forward (PString "/api/(.*)") (VStr "https://upstream/v2/") [].

(** [cache|/img|60], caching under [/cache]. *)
Definition cache_rules : list Rule :=
  add_cache "/cache" (PString "/img") (VNum 60) VUndefined [].

(** A rule whose request hook answers [false]. *)
Definition suppress_rules : list Rule :=
  addRule (PString "/own") VUndefined (Some "own")
          (Some (fun _ => ret (VBool false))) None None [].

(** A custom rule that reuses the cache rule's response hook without
    its request hook. *)
Definition response_only_rule : Rule :=
  mkRule (Some "tap") VUndefined (fun _ => Ok true)
         (Some (mkHandler None (Some CacheRule_onResponse))).

(** The head that the cache rule's response hook stores for a 200
    response received at [epoch]. *)
Definition stored_head : value :=
  JSON_object [("statusCode", VNum 200);
               ("statusMessage", VStr "OK");
               ("headers", VObj Object_ [("content-type", VStr "image/png")]);
               ("updateTime", VNum epoch)].



(** An image as the upstream server answers it. *)
Definition upstream_image : value :=
  VObj IncomingMessage_
       [("statusCode", VNum 200);
        ("statusMessage", VStr "OK");
        ("headers", VObj Object_ [("content-type", VStr "image/png")])].

(** The proxy after a first request for [/img] under the cache rule,
    and after the upstream answer to it. *)
Definition first_pass : St :=
  fst (forwardRequest cache_rules "http"
                      (idle (request "GET" "http://x/img?a=1" "x"))).

Definition answered : St :=
  fst (upstream_response 1 (hd_error cache_rules) upstream_image first_pass).

(** A second request for [/img], with another query, at time [t]. *)
Definition second_pass (t : Z) : St :=
  fst (forwardRequest cache_rules "http"
         (arrival (request "GET" "http://x/img?b=2" "x") 1 None
                  (requests answered) (disk answered) t no_timers)).


End Scenario.

(** ** Further requests and rules used as examples *)

Module Cases.

Import Runtime Scenario.

(** [content|/hello|hi]; no example gives the rule an object to
    print. *)
Definition content_rules : list Rule :=
  add_content (fun _ => Ok "{}") (PString "/hello") (VStr "hi") [].

(** [forward|/api|nowhere]: the target is no URL. *)
Definition lost_rules : list Rule :=
  add_forward (PString "/api") (VStr "nowhere") [].

(** [file|/a.js|/srv/a.js], followed by a custom rule whose matcher
    throws. *)
Definition broken_rules : list Rule :=
  addCustomRule
    (mkRule (Some "broken") VUndefined (fun _ => Throw (Exn "SyntaxError" "")) None)
    served_rules.

(** A response a hook answers with a body of its own. *)
Definition gone : value :=
  VObj RuleResponse_ [("statusCode", VNum 404); ("body", VStr "gone")].

(** The cache file of [GET x/img]. *)
Definition img_file : CacheFile :=
  mkCacheFile "/cache/x/img" "/cache/x/img/GET.head" "/cache/x/img/GET.body" false.

End Cases.

(** * Properties *)

(** ** The engine up to the hook call *)

Section Interception.

(** Arming the journal timer touches the inspector and the timers
    only. *)
Lemma save_ok s :
  exists s',
    Insp.save s = (s', Ok tt)
    /\ req s' = req s /\ res s' = res s /\ trace s' = trace s
    /\ requests s' = requests s /\ disk s' = disk s /\ seq s' = seq s
    /\ (inspector s = None -> s' = s).
Proof.
  unfold Insp.save. destruct (inspector s) as [i|] eqn:E.
  - destruct (Insp.saveEntries (now s) i (timers s)) as [i' t'].
    eexists; split; [reflexivity|]. simpl. repeat split; auto. discriminate.
  - eexists; split; [reflexivity|]. repeat split; auto.
Qed.

(** Counting, pausing and reporting a request leaves the sink, the
    cache table and the disk alone, and the request paused. *)
Lemma intercepted_facts rule s :
  res (intercepted rule s) = res s
  /\ req (intercepted rule s) = pause (req s)
  /\ seq (intercepted rule s) = S (seq s)
  /\ requests (intercepted rule s) = requests s
  /\ disk (intercepted rule s) = disk s
  /\ trace (intercepted rule s)
     = (trace s ++ ReqPause :: inspector_saw (inspector s) (S (seq s)) rule)%list.
Proof.
  unfold intercepted, inspector_onRequest, bind, modify, on_req, gets. simpl.
  destruct (inspector s) as [i|] eqn:E; simpl.
  - unfold Insp.onRequest. simpl. rewrite E.
    unfold bind.
    match goal with |- context [Insp.save ?x] =>
      destruct (save_ok x) as (s' & -> & Hr & Hs & Ht & Hq & Hd & Hn & _) end.
    simpl. unfold on_data. rewrite Hr. simpl.
    rewrite Hs, Ht, Hq, Hd, Hn. simpl.
    repeat split; auto.
    all: try (rewrite <- app_assoc; reflexivity).
  - repeat split; auto.
Qed.

(** Reporting a request to the inspector does not throw. *)
Lemma inspector_onRequest_ok n nm s : snd (inspector_onRequest n nm s) = Ok tt.
Proof.
  unfold inspector_onRequest, bind, gets, modify. simpl.
  destruct (inspector s) as [i|] eqn:E; simpl; [|reflexivity].
  unfold Insp.onRequest. simpl. rewrite E. unfold bind.
  match goal with |- context [Insp.save ?x] =>
    destruct (save_ok x) as (s' & -> & _) end.
  reflexivity.
Qed.

End Interception.

(** ** What the emitter and the inspector leave untouched *)

Section Frames.





(** What an accepted [setHeader] changes. *)
Lemma setHeader_ok name v r r' :
  setHeader name v r = Ok r' ->
  outHeaders r' = <[Str.toLowerCase name := (name, v)]> (outHeaders r)
  /\ head r' = head r.
Proof.
  unfold setHeader. destruct (head r) eqn:Hh; [discriminate|].
  destruct v; try discriminate; intros [= <-]; cbn; rewrite ?Hh; split; reflexivity.
Qed.

(** The head [writeHead] fixes, when it accepts. *)
Lemma writeHead_ok sc sm hs r r' :
  is_nullish hs = false ->
  head r = None ->
  writeHead sc sm hs r = Ok r' ->
  exists msg rm,
    head r' = Some (to_int32 sc, msg, outHeaders rm)
    /\ merge_headers (own_props hs) r = Ok rm
    /\ (forall m, sm = VStr m -> msg = m).
Proof.
  intros Hn Hh. unfold writeHead. rewrite Hh.
  destruct (_ || _); [discriminate|].
  assert (Hobj : (let '(message, obj') :=
                    match sm with
                    | VStr m => (m, hs)
                    | _ => (STATUS_CODES (to_int32 sc), coalesce hs sm)
                    end in obj') = hs).
  { unfold coalesce. rewrite Hn. destruct sm; reflexivity. }
  destruct (match sm with VStr m => (m, hs) | _ => _ end) as [message obj'] eqn:E.
  cbn in Hobj. subst obj'.
  destruct (merge_headers (own_props hs) r) as [rm|] eqn:Hm; [|discriminate].
  intros [= <-]. exists message, rm. cbn. repeat split.
  intros m ->. injection E as ->. reflexivity.
Qed.

(** Merging headers: for each name, the last property of that name
    wins over what was set before. *)
Lemma merge_headers_lookup props : forall r r' name,
  merge_headers props r = Ok r' ->
  outHeaders r' !! Str.toLowerCase name
  = match last_named name props with
    | Some kv => Some kv
    | None => outHeaders r !! Str.toLowerCase name
    end.
Proof.
  induction props as [|[k v] rest IH]; intros r r' name Hm.
  - injection Hm as <-. reflexivity.
  - cbn [merge_headers] in Hm. cbn [last_named].
    destruct (Str.is_empty k) eqn:Ek.
    + rewrite (IH _ _ name Hm). cbn [negb andb].
      destruct (last_named name rest); reflexivity.
    + destruct (setHeader k v r) as [r1|] eqn:Hs; [|discriminate].
      destruct (setHeader_ok _ _ _ _ Hs) as [Ho _].
      rewrite (IH _ _ name Hm), Ho. cbn [negb andb].
      destruct (last_named name rest); [reflexivity|].
      destruct (String.eqb (Str.toLowerCase k) (Str.toLowerCase name)) eqn:E.
      * apply String.eqb_eq in E. rewrite E. apply lookup_insert_eq.
      * apply lookup_insert_ne. apply String.eqb_neq. exact E.
Qed.

(** Headers that are all defined merge into a sink whose head is not
    fixed yet. *)
Lemma merge_headers_defined props : forall r,
  head r = None ->
  headers_defined props = true ->
  exists r', merge_headers props r = Ok r' /\ head r' = None.
Proof.
  induction props as [|[k v] rest IH]; intros r Hh Hd.
  - exists r. split; [reflexivity|exact Hh].
  - cbn [headers_defined forallb fst snd] in Hd.
    apply andb_true_iff in Hd as [Hkv Hrest].
    cbn [merge_headers]. destruct (Str.is_empty k) eqn:Ek.
    + apply IH; assumption.
    + cbn [orb] in Hkv.
      assert (Hs : exists r1, setHeader k v r = Ok r1 /\ head r1 = None).
      { unfold setHeader. rewrite Hh.
        destruct v; try discriminate Hkv; eexists;
          (split; [reflexivity|cbn; rewrite ?Hh; reflexivity]). }
      destruct Hs as (r1 & -> & Hh1). apply IH; assumption.
Qed.

(** [writeHead] accepts a status in 100..999 with defined headers on
    a sink whose head is not fixed yet. *)
Lemma writeHead_accepts sc sm hs r :
  is_nullish hs = false ->
  head r = None ->
  100 <= to_int32 sc <= 999 ->
  headers_defined (own_props hs) = true ->
  exists r', writeHead sc sm hs r = Ok r'.
Proof.
  intros Hn Hh [Hlo Hhi] Hd. unfold writeHead. rewrite Hh.
  assert (Hr : (to_int32 sc <? 100) || (999 <? to_int32 sc) = false).
  { apply orb_false_iff. split; apply Z.ltb_ge; assumption. }
  rewrite Hr.
  assert (Hobj : forall message obj',
             match sm with
             | VStr m => (m, hs)
             | _ => (STATUS_CODES (to_int32 sc), coalesce hs sm)
             end = (message, obj') -> obj' = hs).
  { intros message obj'. unfold coalesce. rewrite Hn.
    destruct sm; intros [= _ <-]; reflexivity. }
  destruct (match sm with VStr m => (m, hs) | _ => _ end) as [message obj'] eqn:E.
  rewrite (Hobj _ _ eq_refl).
  destruct (merge_headers_defined _ r Hh Hd) as (rm & -> & _).
  eexists. reflexivity.
Qed.

End Frames.

(** ** Objects *)

Section Objects.







End Objects.

(** ** The coercion of hook results *)

Section Coercion.




(** Setting the permissive origin header on an untouched sink. *)
Lemma setHeader_fresh :
  setHeader ACAO (VStr "*") fresh_response
  = Ok (mkRes acao_only None None false None None).
Proof. vm_compute. reflexivity. Qed.

(** A synthesized result: resume, set the header, emit. *)
Lemma coerce_synth n url rule rt s :
  outcome_of rt = Synth ->
  coerce n url rule rt s =
    (on_req ReqResume resume ;;
     on_res (ResSetHeader ACAO (VStr "*")) (setHeader ACAO (VStr "*")) ;;
     onResponse n (synth_response rt)) s.
Proof.
  intros Ho.
  destruct rt as [| |b|z|str|u|e|p|k props]; try discriminate Ho; try reflexivity.
  destruct b; discriminate Ho.
Qed.

(** A value that is not a [RuleResponse] is wrapped. *)
Lemma synth_wrapped rt :
  outcome_of rt = Synth -> is_rule_response rt = false ->
  synth_response rt
  = VObj Object_ [("body", rt); ("statusCode", VNum (if is_error rt then 500 else 200))].
Proof.
  intros Ho Hrr. destruct rt as [| |b|z|str|u|e|p|k props]; try discriminate Ho;
    try reflexivity.
  destruct k; try discriminate Hrr; reflexivity.
Qed.

(** The head written for a wrapped value. *)
Lemma writeHead_wrapped (error : bool) :
  writeHead (VNum (if error then 500 else 200)) (VStr "") (VObj Object_ [])
            (mkRes acao_only None None false None None)
  = Ok (mkRes acao_only (Some (if error then 500 else 200, "", acao_only))
              None false None None).
Proof. destruct error; reflexivity. Qed.


(** A response that names no origin header gets the permissive one. *)
Lemma last_named_none name props :
  existsb (fun kv => String.eqb (Str.toLowerCase (fst kv)) (Str.toLowerCase name))
          props = false ->
  last_named name props = None.
Proof.
  induction props as [|[k v] rest IH]; [reflexivity|].
  cbn [existsb fst]. intros Hn. apply orb_false_iff in Hn as [Hk Hrest].
  cbn [last_named]. rewrite (IH Hrest), Hk, andb_false_r. reflexivity.
Qed.

Lemma origin_header_default rt :
  names_header ACAO (get rt "headers") = false ->
  origin_header rt = (ACAO, VStr "*").
Proof.
  intros Hn. unfold origin_header, own_headers.
  destruct (is_rule_response rt); [|reflexivity].
  rewrite (last_named_none _ _ Hn). reflexivity.
Qed.

End Coercion.


(** ** The dispatch engine *)

Section Dispatch.
Context `{Platform}.

(** [forwardRequest] once the URL is parsed and the rule found. *)
Lemma forwardRequest_step rules proto s url rule :
  request_url proto (req s) = Ok url ->
  find_rule rules (req s) = Ok rule ->
  forwardRequest rules proto s =
    (if match rule with Some _ => true | None => false end
        && String.eqb (req_method (req s)) "OPTIONS"
     then preflight
     else (let* rt := call_onRequest (S (seq s)) rule in
           coerce (S (seq s)) url rule rt)) (intercepted rule s).
Proof.
  intros Hu Hf. unfold request_url in Hu.
  unfold forwardRequest, intercepted.
  unfold bind, gets, of_result, modify, on_req. rewrite Hu, Hf.
  cbn [seq log set_req set_seq req].
  match goal with |- context [inspector_onRequest ?n ?nm ?x] =>
    pose proof (inspector_onRequest_ok n nm x) as Hok;
    destruct (inspector_onRequest n nm x) as [s1 [[]|e]] eqn:E
  end; [|discriminate Hok].
  assert (Hs1 : s1 = intercepted rule s).
  { unfold intercepted, bind, modify, on_req. cbn [seq log set_req set_seq req].
    rewrite E. reflexivity. }
  destruct (intercepted_facts rule s) as (_ & Hr & _).
  rewrite Hs1, Hr. reflexivity.
Qed.


(** What [fetch] does. *)
Lemma fetch_run n url rule s :
  fetch n url rule s =
    (set_req (resume (resume (req s)))
       (log ReqResume
          (log ReqPipeline
             (log (HttpRequest (Str.startsWith "https" (protocol url)) url
                               (req_method (req s)) (req_headers (req s))) s))),
     Ok tt).
Proof.
  unfold fetch, bind, gets, modify, on_req. destruct s; reflexivity.
Qed.

(** C10. When the request hook of the matched rule answers [false],
    [forwardRequest] ends in the very state the hook left: after the
    hook the engine does nothing. Before it, the engine only counted
    and paused the request, reported it to the inspector and called
    the hook: it made no call on the sink and none that resumes the
    request, so that the sink is as it was and the request is paused
    when the hook runs, and they stay so if the hook leaves them
    alone. *)
Theorem suppress_leaves_request_paused rules proto s url x hook s2 :
  request_url proto (req s) = Ok url ->
  find_rule rules (req s) = Ok (Some x) ->
  (exists after, handler x = Some (mkHandler (Some hook) after)) ->
  req_method (req s) <> "OPTIONS" ->
  let s1 := log (RuleOnRequest (S (seq s)) (args x)) (intercepted (Some x) s) in
  hook (mkRequestArgs (S (seq s)) (args x)) s1 = (s2, Ok (VBool false)) ->
  forwardRequest rules proto s = (s2, Ok tt)
  /\ res s1 = res s
  /\ req_flowing (req s1) = Some false
  /\ trace s1 = (trace s ++ ReqPause :: inspector_saw (inspector s) (S (seq s)) (Some x)
                   ++ [RuleOnRequest (S (seq s)) (args x)])%list
  /\ forallb (fun e => negb (on_sink e || resumes e))
             (ReqPause :: inspector_saw (inspector s) (S (seq s)) (Some x)
                ++ [RuleOnRequest (S (seq s)) (args x)]) = true
  /\ (res s2 = res s1 -> res (fst (forwardRequest rules proto s)) = res s)
  /\ (req s2 = req s1 ->
      req_flowing (req (fst (forwardRequest rules proto s))) = Some false).
Proof.
  intros Hu Hf [after Hh] Hm s1 Hhook.
  destruct (intercepted_facts (Some x) s) as (Ir & Iq & In & Iw & Id & It).
  assert (Hrun : forwardRequest rules proto s = (s2, Ok tt)).
  { rewrite (forwardRequest_step _ _ _ _ _ Hu Hf).
    apply String.eqb_neq in Hm. rewrite Hm. cbn [andb].
    unfold bind, call_onRequest. destruct x as [nm a m h]. cbn [handler args] in *.
    subst h. unfold bind at 1. unfold modify at 1.
    fold s1. rewrite Hhook. reflexivity. }
  assert (Hres : res s1 = res s) by (unfold s1; cbn [log res]; exact Ir).
  assert (Hreq : req_flowing (req s1) = Some false).
  { unfold s1. cbn [log req]. rewrite Iq. reflexivity. }
  split; [exact Hrun|]. split; [exact Hres|]. split; [exact Hreq|].
  split; [|split; [|split]].
  - unfold s1. cbn [log trace]. rewrite It, <- app_assoc. reflexivity.
  - destruct (inspector s); reflexivity.
  - intros Hk. rewrite Hrun. cbn [fst]. rewrite Hk. exact Hres.
  - intros Hk. rewrite Hrun. cbn [fst]. rewrite Hk. exact Hreq.
Qed.


End Dispatch.

(** ** The built-in handlers *)

Section Handlers.
Context `{Platform}.

(** For a path that does not exist, [file] answers an object literal
    with [statusCode] 404, which is not a [RuleResponse]: the status
    the coercion gives it is 200. *)
Lemma file_missing n path s :
  existsSync path (disk s) = false ->
  file (mkRequestArgs n (VStr path)) s
  = (s, Ok (VObj Object_ [("statusCode", VNum 404)]))
  /\ expected_status (VObj Object_ [("statusCode", VNum 404)]) = VNum 200.
Proof.
  intros He. unfold file, bind, gets, ret. cbn [ra_args]. rewrite He.
  rewrite orb_true_r. split; reflexivity.
Qed.


(** C8, as the code has it. Called with a [seq] under which the
    request hook stored nothing, the cache rule's response hook throws
    a [TypeError]; it has written no file and changed nothing by
    then. *)
Theorem cache_response_without_request n response s :
  requests s !! n = None ->
  CacheRule_onResponse (mkResponseArgs n response) s = (s, Throw TypeError).
Proof.
  intros Hn. unfold CacheRule_onResponse, bind, gets, throw. cbn [rs_seq].
  rewrite Hn. reflexivity.
Qed.

End Handlers.

(** ** The cache rule *)

Section Cache.
Context `{Platform}.

Lemma cache_args_ttl ttl cbq : get (cache_args ttl cbq) "ttl" = ttl.
Proof. reflexivity. Qed.

Lemma cache_args_by_query ttl cbq : get (cache_args ttl cbq) "cacheByQuery" = cbq.
Proof. reflexivity. Qed.

(** [CacheRule.onRequest] once the cache file is known. *)
Lemma CacheRule_onRequest_unfold dir n ttl cbq s f :
  getCacheFile dir (req s) (by_query cbq) (disk s) = Ok f ->
  CacheRule_onRequest dir (mkRequestArgs n (cache_args ttl cbq)) s
  = let stored := (set_requests (<[n := (f, ttl)]> (requests s)) s, Ok VUndefined) in
    if exist f then
      match read_json (headFile f) (disk s) with
      | Ok head =>
          match (if is_nullish ttl then Ok VUndefined
                 else get_prop head "updateTime") with
          | Ok _ =>
              if is_nullish ttl || fresh head ttl (now s)
              then (s, Ok (VObj RuleResponse_
                             (assign "body"
                                (if existsSync (bodyFile f) (disk s)
                                 then VReadStream (bodyFile f) else VStr "")
                                (assign_all [] (own_props head)))))
              else stored
          | Throw e => (s, Throw e)
          end
      | Throw e => (s, Throw e)
      end
    else stored.
Proof.
  intros Hf. unfold CacheRule_onRequest. cbn [ra_args ra_seq].
  rewrite cache_args_ttl, cache_args_by_query.
  unfold bind, gets, of_result, modify, ret.
  cbn [get_prop cache_args is_nullish].
  match goal with |- context [getCacheFile dir (req s) ?v (disk s)] =>
    replace v with (by_query cbq) by (destruct cbq; reflexivity) end.
  rewrite Hf.
  destruct (exist f); [|reflexivity].
  destruct (read_json (headFile f) (disk s)); [|reflexivity].
  destruct (if is_nullish ttl then _ else _); [|reflexivity].
  destruct (_ || _); reflexivity.
Qed.



Lemma is_empty_false x : x <> "" -> Str.is_empty x = false.
Proof. destruct x; [congruence|reflexivity]. Qed.

Lemma is_empty_append a b : Str.is_empty (a +:+ "." +:+ b) = false.
Proof. destruct a; reflexivity. Qed.

(** C4. The cache file of a request is the one computed from the host
    and the path of its URL: the directory is host and path under the
    cache root, the base name is the method, joined by a dot to the MD5
    digest of the query when [cacheByQuery] is set and the URL has a
    query. With [cacheByQuery] unset, two requests whose URLs have the
    same host and path and whose methods agree select the same file,
    whatever their queries. *)
Theorem cache_key_of_host_path dir r cbq d u :
  cache_url r = Ok u ->
  req_method r <> "" ->
  md5_hex (search u) <> "" ->
  getCacheFile dir r cbq d = Ok (entry_file dir (req_method r) u (truthy cbq) d)
  /\ (truthy cbq = false ->
      forall r' u',
        cache_url r' = Ok u' ->
        host u' = host u -> pathname u' = pathname u ->
        req_method r' = req_method r ->
        getCacheFile dir r' cbq d = getCacheFile dir r cbq d)
  /\ (truthy cbq = true -> search u <> "" ->
      base_name (req_method r) u (truthy cbq)
      = req_method r +:+ "." +:+ md5_hex (search u))
  /\ (truthy cbq = false \/ search u = "" ->
      base_name (req_method r) u (truthy cbq) = req_method r).
Proof.
  intros Hu Hm Hd. unfold cache_url in Hu.
  assert (Hget : forall r0 u0,
             cache_url r0 = Ok u0 -> truthy cbq = false ->
             getCacheFile dir r0 cbq d
             = Ok (let base := path_resolve (entry_dir dir u0)
                                 (if Str.is_empty (req_method r0) then "1"
                                  else req_method r0) in
                   mkCacheFile (entry_dir dir u0) (base +:+ ".head") (base +:+ ".body")
                               (existsSync (base +:+ ".head") d))).
  { intros r0 u0 H0 Hc. unfold cache_url in H0. unfold getCacheFile.
    rewrite H0, Hc. reflexivity. }
  split; [|split; [|split]].
  - unfold getCacheFile, entry_file, base_name. rewrite Hu.
    destruct (truthy cbq && negb (Str.is_empty (search u))) eqn:E.
    + rewrite (is_empty_false _ Hd). cbn [negb].
      change (Str.join "." [req_method r; md5_hex (search u)])
        with (req_method r +:+ "." +:+ md5_hex (search u)).
      rewrite is_empty_append. reflexivity.
    + cbn [Str.is_empty negb]. rewrite (is_empty_false _ Hm). reflexivity.
  - intros Hc r' u' Hu' Hh Hp Hm'.
    rewrite (Hget r' u' Hu' Hc), (Hget r u Hu Hc).
    unfold entry_dir. rewrite Hh, Hp, Hm'. reflexivity.
  - intros Hc Hs. unfold base_name. rewrite Hc, (is_empty_false _ Hs). reflexivity.
  - intros [Hc|Hs]; unfold base_name.
    + rewrite Hc. reflexivity.
    + rewrite Hs. rewrite andb_false_r. reflexivity.
Qed.

End Cache.

(** ** The rule matcher *)

Section Matcher.
Context `{Platform}.





End Matcher.

(** ** The inspector journal *)

Section Journal.

(** An update that comes after the time kept in [nextSaveTime] arms a
    timer of its own, 4000 ms ahead, and clears none. *)
Lemma saveEntries_late now i t :
  nextSaveTime i < now ->
  Insp.saveEntries now i t
  = (mkInspector (insp_dir i) (entries i) 4000 (Some (next_handle t)),
     mkTimers (S (next_handle t)) (<[next_handle t := now + 4000]> (pending t))).
Proof.
  intros Hlate. unfold Insp.saveEntries. cbv zeta.
  assert (H1 : (nextSaveTime i - now <? 0) = true) by (apply Z.ltb_lt; lia).
  assert (H2 : (nextSaveTime i - now <=? 2000) = true) by (apply Z.leb_le; lia).
  rewrite H1, H2. reflexivity.
Qed.

Lemma handles_fresh_arm t due :
  handles_fresh t ->
  handles_fresh (mkTimers (S (next_handle t)) (<[next_handle t := due]> (pending t)))
  /\ pending t !! next_handle t = None.
Proof.
  intros Hf. split.
  - intros h d. cbn [pending next_handle]. rewrite lookup_insert.
    case_decide as E.
    + intros _. subst h. apply Nat.lt_succ_diag_r.
    + intros Hl. apply Hf in Hl. apply Nat.lt_lt_succ_r. exact Hl.
  - destruct (pending t !! next_handle t) as [d|] eqn:E; [|reflexivity].
    apply Hf in E. exfalso. apply (Nat.lt_irrefl _ E).
Qed.

(** One timer per update: a burst of updates, each later than the time
    kept in [nextSaveTime] and than 4000, leaves as many more timers
    armed as there were updates. *)
Lemma one_timer_per_update times : forall i t,
  handles_fresh t ->
  Forall (fun now => nextSaveTime i < now /\ 4000 < now) times ->
  let '(i', t') := updates times i t in
  size (pending t') = (size (pending t) + List.length times)%nat
  /\ handles_fresh t'.
Proof.
  induction times as [|now rest IH]; intros i t Hf Hall.
  - cbn. split; [lia|exact Hf].
  - apply Forall_cons in Hall as [[Hlate H4000] Hrest].
    cbn [updates]. rewrite (saveEntries_late _ _ _ Hlate).
    destruct (handles_fresh_arm t (now + 4000) Hf) as [Hf' Hnone].
    specialize (IH (mkInspector (insp_dir i) (entries i) 4000 (Some (next_handle t)))
                   (mkTimers (S (next_handle t))
                             (<[next_handle t := now + 4000]> (pending t)))
                   Hf').
    cbn [nextSaveTime] in IH.
    assert (Hrest' : Forall (fun now0 => 4000 < now0 /\ 4000 < now0) rest).
    { eapply Forall_impl; [exact Hrest|]. cbn. intros a [_ Ha]. split; exact Ha. }
    specialize (IH Hrest').
    destruct (updates rest _ _) as [i' t'].
    destruct IH as [Hsize Hfresh]. split; [|exact Hfresh].
    rewrite Hsize. cbn [pending List.length].
    rewrite (map_size_insert_None _ _ _ Hnone). lia.
Qed.

End Journal.

(** ** The emitter *)

Section Emitter.

(** Arming the journal timer keeps the journal's entries and its
    directory. *)
Lemma save_journal s i :
  inspector s = Some i ->
  exists i',
    inspector (fst (Insp.save s)) = Some i'
    /\ entries i' = entries i /\ insp_dir i' = insp_dir i
    /\ now (fst (Insp.save s)) = now s.
Proof.
  intros E. unfold Insp.save. rewrite E.
  destruct (Insp.saveEntries (now s) i (timers s)) as [i' t'] eqn:S.
  exists i'. cbn. split; [reflexivity|].
  unfold Insp.saveEntries in S. cbv zeta in S.
  destruct (nextSaveTime i - now s <=? 2000);
    destruct (Node.setTimeout _ _ _) as [h t2]; injection S as <- _;
    repeat split; reflexivity.
Qed.

(** Reporting a response to the inspector: for a request that is in
    the journal it does not throw; it leaves the request, the sink,
    the counter and the cache table alone and keeps the entry. *)
Lemma inspector_onRespond_run n v s :
  is_nullish v = false -> journalled n s ->
  exists s',
    inspector_onRespond n v s = (s', Ok tt)
    /\ req s' = req s /\ res s' = res s /\ seq s' = seq s
    /\ requests s' = requests s /\ now s' = now s
    /\ trace s' = (trace s ++ inspector_heard (inspector s) n v)%list
    /\ journalled n s'
    /\ (inspector s = None <-> inspector s' = None).
Proof.
  intros Hv Hj. unfold inspector_onRespond, bind, gets, modify.
  destruct (inspector s) as [i|] eqn:E.
  - destruct (Hj i E) as [e He].
    unfold Insp.onRespond. cbn [inspector log]. rewrite E, Hv, He.
    unfold bind.
    match goal with |- context [Insp.save ?x] =>
      destruct (save_ok x) as (s1 & Hs & Hr & Hres & Ht & Hq & Hd & Hn & _);
      destruct (save_journal x _ eq_refl) as (i' & Hi & He' & Hdir & Hnow);
      rewrite Hs in Hi, Hnow |- *; cbn [fst] in Hi, Hnow end.
    cbn [req res seq requests trace log set_inspector now] in Hr, Hres, Ht, Hq, Hn, Hnow.
    assert (Hj' : forall s2, inspector s2 = Some i' -> journalled n s2).
    { intros s2 H2 i2 Hi2. rewrite H2 in Hi2. injection Hi2 as <-.
      rewrite He'. cbn [entries Insp.with_entries]. rewrite lookup_insert_eq.
      eexists. reflexivity. }
    destruct (is_readable _); eexists; (split; [reflexivity|]);
      cbn [req res seq requests trace now set_disk inspector_heard];
      rewrite ?Hr, ?Hres, ?Ht, ?Hq, ?Hn, ?Hnow;
      repeat split; try reflexivity; try (apply Hj'; cbn; exact Hi);
      try discriminate; cbn; rewrite Hi; discriminate.
  - exists s. split; [reflexivity|]. cbn [inspector_heard].
    rewrite app_nil_r. repeat split; auto.
Qed.

(** The emitter once [writeHead] has accepted the head. *)
Lemma onResponse_run n response s r1 :
  is_nullish response = false -> journalled n s ->
  let statusCode := coalesce (get response "statusCode") (VNum 500) in
  let statusMessage := coalesce (get response "statusMessage") (VStr "") in
  let headers := or_else (get response "headers") (VObj Object_ []) in
  let stream := or_else (get response "body") response in
  writeHead statusCode statusMessage headers (res s) = Ok r1 ->
  exists s1,
    inspector_onRespond n response
      (set_res r1 (log (ResWriteHead statusCode statusMessage headers) s))
    = (s1, Ok tt)
    /\ onResponse n response s
       = if is_readable stream
         then (set_res (pipe_into stream r1) (log (ResPipeline stream) s1), Ok tt)
         else match end_ (get response "body") r1 with
              | Ok r2 => (set_res r2 (log (ResEnd (get response "body")) s1), Ok tt)
              | Throw e =>
                  (handleError e ;; inspector_onRespond n (VError e))
                    (log (ResEnd (get response "body")) s1)
              end.
Proof.
  intros Hv Hj sc sm hs stream W.
  assert (Hj1 : journalled n (set_res r1 (log (ResWriteHead sc sm hs) s)))
    by exact Hj.
  destruct (inspector_onRespond_run n response _ Hv Hj1)
    as (s1 & Hrun & _ & Hres & _).
  exists s1. split; [exact Hrun|].
  unfold onResponse, try_catch. fold sc sm hs stream.
  unfold bind at 1. unfold on_res at 1. cbn [log res]. rewrite W.
  unfold bind at 1. rewrite Hrun.
  cbn [res set_res] in Hres.
  destruct (is_readable stream).
  - unfold on_res. cbn [log res]. rewrite Hres. reflexivity.
  - unfold on_res. cbn [log res]. rewrite Hres.
    destruct (end_ (get response "body") r1); reflexivity.
Qed.


(** The [catch] of the emitter: the sink is destroyed, the error
    callback called and the inspector told; nothing is thrown. *)
Lemma catch_run n e x :
  journalled n x ->
  exists s',
    (handleError e ;; inspector_onRespond n (VError e)) x = (s', Ok tt)
    /\ res s' = destroy e (res x) /\ req s' = req x
    /\ seq s' = seq x /\ requests s' = requests x
    /\ trace s' = (trace x ++ ResDestroy e :: OnError FORWARD e
                     :: inspector_heard (inspector x) n (VError e))%list
    /\ journalled n s'.
Proof.
  intros Hj. unfold handleError, bind, on_res, modify. cbn [log res].
  match goal with |- context [inspector_onRespond n (VError e) ?y] =>
    destruct (inspector_onRespond_run n (VError e) y eq_refl (Hj : journalled n y))
      as (s' & -> & Hq & Hr & Hs & Ht & _ & Htr & Hj' & _) end.
  exists s'. split; [reflexivity|].
  cbn [req res seq requests trace inspector set_res log] in Hq, Hr, Hs, Ht, Htr.
  rewrite Hq, Hr, Hs, Ht, Htr, <- !app_assoc. repeat split; auto.
Qed.

(** The emitter, case by case: [writeHead] refuses the head; the body
    is a stream; the body is given to [end], which takes or refuses
    it. *)
Lemma onResponse_cases n response s :
  is_nullish response = false -> journalled n s ->
  let statusCode := coalesce (get response "statusCode") (VNum 500) in
  let statusMessage := coalesce (get response "statusMessage") (VStr "") in
  let headers := or_else (get response "headers") (VObj Object_ []) in
  let stream := or_else (get response "body") response in
  let wrote := ResWriteHead statusCode statusMessage headers in
  let heard := inspector_heard (inspector s) n in
  let '(s', r) := onResponse n response s in
  r = Ok tt
  /\ req s' = req s /\ seq s' = seq s /\ requests s' = requests s
  /\ match writeHead statusCode statusMessage headers (res s) with
     | Throw e =>
         res s' = destroy e (res s)
         /\ trace s' = (trace s ++ wrote :: ResDestroy e :: OnError FORWARD e
                          :: heard (VError e))%list
     | Ok r1 =>
         if is_readable stream
         then res s' = pipe_into stream r1
              /\ trace s' = (trace s ++ wrote :: heard response
                               ++ [ResPipeline stream])%list
         else match end_ (get response "body") r1 with
              | Ok r2 =>
                  res s' = r2
                  /\ trace s' = (trace s ++ wrote :: heard response
                                   ++ [ResEnd (get response "body")])%list
              | Throw e =>
                  res s' = destroy e r1
                  /\ trace s' = (trace s ++ wrote :: heard response
                                   ++ ResEnd (get response "body") :: ResDestroy e
                                   :: OnError FORWARD e :: heard (VError e))%list
              end
     end.
Proof.
  intros Hv Hj sc sm hs stream wrote heard.
  destruct (writeHead sc sm hs (res s)) as [r1|e] eqn:W.
  - destruct (onResponse_run n response s r1 Hv Hj W) as (s1 & Hi & ->).
    fold sc sm hs stream in Hi |- *.
    assert (Hj1 : journalled n (set_res r1 (log wrote s))) by exact Hj.
    destruct (inspector_onRespond_run n response _ Hv Hj1)
      as (s1' & Hi' & Hq & Hr & Hs & Ht & _ & Htr & Hj' & Hnone).
    unfold wrote in Hi'. rewrite Hi in Hi'. injection Hi' as <-.
    cbn [req res seq requests trace inspector set_res log] in Hq, Hr, Hs, Ht, Htr.
    destruct (is_readable stream).
    + cbn [req res seq requests trace set_res log].
      rewrite Hq, Hs, Ht, Htr, <- !app_assoc. repeat split; reflexivity.
    + destruct (end_ (get response "body") r1) as [r2|e] eqn:En.
      * cbn [req res seq requests trace set_res log].
        rewrite Hq, Hs, Ht, Htr, <- !app_assoc. repeat split; reflexivity.
      * assert (Hj2 : journalled n (log (ResEnd (get response "body")) s1))
          by exact Hj'.
        destruct (catch_run n e _ Hj2)
          as (s' & -> & Cr & Cq & Cs & Ct & Ctr & _).
        cbn [req res seq requests trace inspector set_res log] in Cr, Cq, Cs, Ct, Ctr.
        assert (Hsame : inspector_heard (inspector s1) n (VError e)
                        = inspector_heard (inspector s) n (VError e)).
        { unfold inspector_heard. cbn [inspector set_res log] in Hnone.
          destruct Hnone as [H1 H2].
          destruct (inspector s1), (inspector s); try reflexivity;
            first [discriminate (H1 eq_refl) | discriminate (H2 eq_refl)]. }
        rewrite Cr, Cq, Cs, Ct, Ctr, Hsame, Hq, Hr, Hs, Ht, Htr, <- !app_assoc.
        repeat split; reflexivity.
  - unfold onResponse, try_catch. fold sc sm hs stream.
    unfold bind at 1. unfold on_res at 1. cbn [log res]. rewrite W.
    cbv beta.
    destruct (catch_run n e (log (ResWriteHead sc sm hs) s) Hj)
      as (s' & -> & Cr & Cq & Cs & Ct & Ctr & _).
    cbn [req res seq requests trace inspector set_res log] in Cr, Cq, Cs, Ct, Ctr.
    rewrite Cr, Cq, Cs, Ct, Ctr, <- !app_assoc. repeat split; reflexivity.
Qed.


(** What [setHeader], [writeHead] and [end] leave alone. *)
Lemma merge_headers_frame props : forall r r',
  merge_headers props r = Ok r' ->
  head r' = head r /\ body r' = body r /\ finished r' = finished r
  /\ piped r' = piped r /\ destroyed r' = destroyed r.
Proof.
  induction props as [|[k v] rest IH]; intros r r' Hm.
  - injection Hm as <-. repeat split.
  - cbn [merge_headers] in Hm. destruct (Str.is_empty k); [auto|].
    destruct (setHeader k v r) as [r1|] eqn:Hs; [|discriminate].
    destruct (IH _ _ Hm) as (-> & -> & -> & -> & ->).
    unfold setHeader in Hs. destruct (head r) eqn:Hh; [discriminate|].
    destruct v; try discriminate; injection Hs as <-; cbn; rewrite ?Hh;
      repeat split.
Qed.

Lemma writeHead_frame sc sm hs r r' :
  writeHead sc sm hs r = Ok r' ->
  body r' = body r /\ finished r' = finished r
  /\ piped r' = piped r /\ destroyed r' = destroyed r.
Proof.
  unfold writeHead. destruct (head r); [discriminate|].
  destruct (_ || _); [discriminate|].
  destruct (match sm with VStr m => (m, hs) | _ => _ end) as [message obj'].
  destruct (merge_headers (own_props obj') r) as [rm|] eqn:Hm; [|discriminate].
  intros [= <-]. cbn.
  destruct (merge_headers_frame _ _ _ Hm) as (_ & -> & -> & -> & ->).
  repeat split.
Qed.

Lemma end_frame chunk r r' :
  end_ chunk r = Ok r' ->
  finished r' = true /\ piped r' = piped r /\ destroyed r' = destroyed r.
Proof.
  unfold end_. destruct (negb (truthy chunk)).
  - intros [= <-]. repeat split.
  - destruct chunk; try discriminate. intros [= <-]. repeat split.
Qed.

Lemma filter_heard i n v : List.filter is_error_report (inspector_heard i n v) = [].
Proof. destruct i; reflexivity. Qed.

(** X1. The emitter never throws for a request the journal knows, and
    it ends in one of two ways. Either no error is reported: the
    response is ended or a stream is feeding the sink, which was not
    destroyed. Or the head or the body was refused: the error callback
    is called exactly once, with kind [FORWARD] and the error the sink
    is destroyed with, and the response is neither ended nor fed. The
    request, the counter and the cache table are as before. *)
Theorem emitter_never_throws n response s :
  is_nullish response = false -> journalled n s ->
  let '(s', r) := onResponse n response s in
  r = Ok tt
  /\ req s' = req s /\ seq s' = seq s /\ requests s' = requests s
  /\ exists new,
       trace s' = (trace s ++ new)%list
       /\ match List.filter is_error_report new with
          | [] =>
              destroyed (res s') = destroyed (res s)
              /\ (finished (res s') = true \/ is_Some (piped (res s')))
          | [OnError FORWARD e] =>
              destroyed (res s') = Some e
              /\ finished (res s') = finished (res s)
              /\ piped (res s') = piped (res s)
          | _ => False
          end.
Proof.
  intros Hv Hj. pose proof (onResponse_cases n response s Hv Hj) as C.
  cbv zeta in C. destruct (onResponse n response s) as [s' r].
  destruct C as (-> & Hq & Hs & Ht & C).
  split; [reflexivity|]. split; [exact Hq|]. split; [exact Hs|].
  split; [exact Ht|].
  destruct (writeHead _ _ _ (res s)) as [r1|e] eqn:W.
  - destruct (writeHead_frame _ _ _ _ _ W) as (_ & Hfin & Hpip & Hdes).
    destruct (is_readable _).
    + destruct C as [-> ->]. eexists. split; [reflexivity|].
      cbn [List.filter is_error_report].
      rewrite List.filter_app, filter_heard. cbn.
      split; [exact Hdes|]. right. eexists. reflexivity.
    + destruct (end_ _ r1) as [r2|e] eqn:En.
      * destruct C as [-> ->]. eexists. split; [reflexivity|].
        cbn [List.filter is_error_report].
        rewrite List.filter_app, filter_heard. cbn.
        destruct (end_frame _ _ _ En) as (Hf & _ & Hd).
        rewrite Hd, Hdes. split; [reflexivity|]. left. exact Hf.
      * destruct C as [-> ->]. eexists. split; [reflexivity|].
        cbn [List.filter is_error_report].
        rewrite List.filter_app, filter_heard.
        cbn [app List.filter is_error_report]. rewrite filter_heard.
        cbn. rewrite Hfin, Hpip. repeat split.
  - destruct C as [-> ->]. eexists. split; [reflexivity|].
    cbn [List.filter is_error_report]. rewrite filter_heard.
    cbn. repeat split.
Qed.

End Emitter.

(** ** Values answered by request hooks *)

Section Answers.
Context `{Platform}.

(** Once a request is counted and reported it is in the journal. *)
Lemma intercepted_journalled rule s :
  journalled (S (seq s)) (intercepted rule s)
  /\ (inspector s = None <-> inspector (intercepted rule s) = None)
  /\ now (intercepted rule s) = now s.
Proof.
  unfold intercepted, inspector_onRequest, bind, modify, on_req, gets. simpl.
  destruct (inspector s) as [i|] eqn:E; simpl.
  - unfold Insp.onRequest. simpl. rewrite E. unfold bind.
    match goal with |- context [Insp.save ?x] =>
      destruct (save_ok x) as (s1 & Hs & _);
      destruct (save_journal x _ eq_refl) as (i' & Hi & He & _ & Hnow);
      rewrite Hs in Hi, Hnow |- *; cbn [fst] in Hi, Hnow end.
    cbn [modify fst]. split; [|split].
    + intros i2 Hi2. cbn [inspector set_req] in Hi2.
      rewrite Hi in Hi2. injection Hi2 as <-.
      rewrite He. cbn [entries Insp.with_entries]. rewrite lookup_insert_eq.
      eexists. reflexivity.
    + cbn [inspector set_req]. rewrite Hi. split; discriminate.
    + cbn [now set_req]. exact Hnow.
  - split; [|split; [tauto|reflexivity]].
    intros i Hi. simpl in Hi. rewrite E in Hi. discriminate.
Qed.

(** A synthesized value that is not a [RuleResponse]: the request is
    resumed, the origin header set, and the value emitted as the body
    of an object literal. *)
Lemma coerce_wrapped n url rule rt s :
  res s = fresh_response ->
  outcome_of rt = Synth -> is_rule_response rt = false ->
  coerce n url rule rt s
  = onResponse n
      (VObj Object_ [("body", rt);
                     ("statusCode", VNum (if is_error rt then 500 else 200))])
      (set_res (mkRes acao_only None None false None None)
         (log (ResSetHeader ACAO (VStr "*"))
              (set_req (resume (req s)) (log ReqResume s)))).
Proof.
  intros Hres Ho Hrr. rewrite (coerce_synth _ _ _ _ _ Ho).
  unfold bind, on_req, on_res. cbn [log res set_req].
  rewrite Hres, setHeader_fresh, (synth_wrapped _ Ho Hrr). reflexivity.
Qed.

(** What the emitter does with a wrapped value. *)
Lemma wrapped_cases n url rule rt s :
  res s = fresh_response -> journalled n s ->
  outcome_of rt = Synth -> is_rule_response rt = false ->
  let status := if is_error rt then 500 else 200 in
  let response := VObj Object_ [("body", rt); ("statusCode", VNum status)] in
  let wrote :=
    (trace s ++ ReqResume :: ResSetHeader ACAO (VStr "*")
       :: ResWriteHead (VNum status) (VStr "") (VObj Object_ [])
       :: inspector_heard (inspector s) n response)%list in
  let r1 := mkRes acao_only (Some (status, "", acao_only)) None false None None in
  let '(s', r) := coerce n url rule rt s in
  r = Ok tt
  /\ req s' = resume (req s) /\ seq s' = seq s /\ requests s' = requests s
  /\ if is_readable rt
     then res s' = pipe_into rt r1 /\ trace s' = (wrote ++ [ResPipeline rt])%list
     else match end_ rt r1 with
          | Ok r2 => res s' = r2 /\ trace s' = (wrote ++ [ResEnd rt])%list
          | Throw e =>
              res s' = destroy e r1
              /\ trace s' = (wrote ++ ResEnd rt :: ResDestroy e :: OnError FORWARD e
                               :: inspector_heard (inspector s) n (VError e))%list
          end.
Proof.
  intros Hres Hj Ho Hrr status response wrote r1.
  rewrite (coerce_wrapped _ _ _ _ _ Hres Ho Hrr). fold status response.
  match goal with |- context [onResponse n response ?x] =>
    pose proof (onResponse_cases n response x eq_refl Hj) as C end.
  cbv zeta in C.
  match type of C with context [onResponse n response ?x] =>
    destruct (onResponse n response x) as [s' r] end.
  destruct C as (-> & Hq & Hs & Ht & C).
  cbn [req seq requests set_res log set_req] in Hq, Hs, Ht.
  split; [reflexivity|]. split; [exact Hq|]. split; [exact Hs|].
  split; [exact Ht|].
  cbn [get assoc String.eqb Ascii.eqb Bool.eqb response coalesce is_nullish
       res set_res trace log set_req inspector] in C.
  unfold status in C at 1. unfold r1.
  change (writeHead (VNum (if is_error rt then 500 else 200)) (VStr "")
            (VObj Object_ []) (mkRes acao_only None None false None None))
    with (writeHead (VNum (if is_error rt then 500 else 200)) (VStr "")
            (VObj Object_ []) (mkRes acao_only None None false None None)) in C.
  rewrite writeHead_wrapped in C. fold status in C. fold r1 in C |- *.
  assert (Hstream : is_readable (or_else rt response) = is_readable rt).
  { unfold or_else. destruct (truthy rt) eqn:T; [reflexivity|].
    destruct rt; try reflexivity; discriminate T. }
  assert (Hpipe : is_readable rt = true -> or_else rt response = rt).
  { intros R. destruct rt; try discriminate R; reflexivity. }
  rewrite Hstream in C.
  destruct (is_readable rt) eqn:R.
  - rewrite (Hpipe eq_refl) in C. destruct C as [-> ->].
    split; [reflexivity|]. unfold wrote. rewrite <- !app_assoc. reflexivity.
  - destruct (end_ rt r1); destruct C as [-> ->];
      (split; [reflexivity|]); unfold wrote; rewrite <- !app_assoc; reflexivity.
Qed.


Lemma inspector_heard_same i j n v :
  (i = None <-> j = None) -> inspector_heard i n v = inspector_heard j n v.
Proof.
  intros [H1 H2]. destruct i, j; try reflexivity;
    first [discriminate (H1 eq_refl) | discriminate (H2 eq_refl)].
Qed.

(** [forwardRequest] for a request that is no preflight and a rule
    that has a request hook: the hook is called on the intercepted
    request and its result coerced. *)
Lemma forwardRequest_hook rules proto s url x hook after :
  request_url proto (req s) = Ok url ->
  find_rule rules (req s) = Ok (Some x) ->
  handler x = Some (mkHandler (Some hook) after) ->
  req_method (req s) <> "OPTIONS" ->
  forwardRequest rules proto s
  = (let* rt := hook (mkRequestArgs (S (seq s)) (args x)) in
     coerce (S (seq s)) url (Some x) rt)
      (log (RuleOnRequest (S (seq s)) (args x)) (intercepted (Some x) s)).
Proof.
  intros Hu Hf Hh Hm.
  rewrite (forwardRequest_step _ _ _ _ _ Hu Hf).
  apply String.eqb_neq in Hm. rewrite Hm. cbn [andb].
  unfold call_onRequest. destruct x as [nm a m h]. cbn [handler args] in *.
  subst h. unfold bind, modify. reflexivity.
Qed.

(** X2. A hook result that is synthesized and is not a [RuleResponse]
    is emitted as a body, after the head: a stream is fed into the
    sink, which stays open; a string ends the response and is its
    body, the empty string and the number zero end it with no body;
    any other value, an [Error] and an object literal included, is
    refused by [end]: the sink is destroyed with
    [ERR_INVALID_ARG_TYPE] once the head is out, and the error
    callback is called. No upstream request is opened and nothing is
    thrown. *)
Theorem wrapped_value_is_emitted n url rule rt s :
  res s = fresh_response -> journalled n s ->
  outcome_of rt = Synth -> is_rule_response rt = false ->
  let '(s', r) := coerce n url rule rt s in
  r = Ok tt
  /\ List.filter is_fetch (trace s') = List.filter is_fetch (trace s)
  /\ (is_readable rt = true ->
      piped (res s') = Some rt /\ finished (res s') = false
      /\ destroyed (res s') = None)
  /\ (forall text, rt = VStr text ->
      finished (res s') = true /\ destroyed (res s') = None
      /\ body (res s') = if Str.is_empty text then None else Some text)
  /\ (truthy rt = false ->
      finished (res s') = true /\ destroyed (res s') = None
      /\ body (res s') = None)
  /\ (truthy rt = true -> is_readable rt = false ->
      (forall text, rt <> VStr text) ->
      destroyed (res s') = Some ERR_INVALID_ARG_TYPE
      /\ finished (res s') = false /\ piped (res s') = None
      /\ List.filter is_error_report (trace s')
         = (List.filter is_error_report (trace s)
              ++ [OnError FORWARD ERR_INVALID_ARG_TYPE])%list).
Proof.
  intros Hres Hj Ho Hrr.
  pose proof (wrapped_cases n url rule rt s Hres Hj Ho Hrr) as C. cbv zeta in C.
  destruct (coerce n url rule rt s) as [s' r].
  destruct C as (-> & _ & _ & _ & C). split; [reflexivity|].
  assert (Hheard : forall v f, f = is_fetch \/ f = is_error_report ->
             List.filter f (inspector_heard (inspector s) n v) = []).
  { intros v f [-> | ->]; destruct (inspector s); reflexivity. }
  split.
  { destruct (is_readable rt); [|destruct (end_ rt _)]; destruct C as [_ ->];
      rewrite !List.filter_app; cbn [List.filter is_fetch app];
      rewrite ?(Hheard _ _ (or_introl eq_refl)), ?app_nil_r; reflexivity. }
  split; [|split; [|split]].
  - intros R. rewrite R in C. destruct C as [-> _]. repeat split.
  - intros text ->. cbn [is_readable] in C. unfold end_ in C. cbn [truthy] in C.
    destruct (Str.is_empty text); cbn [negb] in C; destruct C as [-> _];
      repeat split.
  - intros T.
    assert (R : is_readable rt = false)
      by (destruct rt; try reflexivity; discriminate T).
    rewrite R in C. unfold end_ in C. rewrite T in C. cbn [negb] in C.
    destruct C as [-> _]. repeat split.
  - intros T R Hs. rewrite R in C. unfold end_ in C. rewrite T in C.
    cbn [negb] in C.
    assert (E : match rt with
                | VStr s0 =>
                    Ok (mkRes acao_only
                          (Some (if is_error rt then 500 else 200, "", acao_only))
                          (Some s0) true None None)
                | _ => Throw ERR_INVALID_ARG_TYPE
                end = Throw ERR_INVALID_ARG_TYPE).
    { destruct rt; try reflexivity. exfalso. apply (Hs s0). reflexivity. }
    cbn [outHeaders head body finished piped destroyed] in C.
    rewrite E in C. destruct C as [-> ->].
    cbn [destroyed finished piped destroy]. repeat split.
    rewrite !List.filter_app. cbn [List.filter is_error_report app].
    rewrite !(Hheard _ _ (or_intror eq_refl)), !app_nil_r. reflexivity.
Qed.

End Answers.

(** ** Files, content and upstream answers, through the engine *)

Section Serving.
Context `{Platform}.

(** X3. A request that is no preflight and matches a [file] rule whose
    file exists is answered from that file: the hook is called once,
    the request resumed, the head 200 written with
    [Access-Control-Allow-Origin: *] as its only header, and a lazy
    read stream of the file fed into the sink, which stays open; the
    sink is not destroyed, no upstream request is opened, and the
    request has taken the next number. *)
Theorem existing_file_is_streamed rules proto s url x after path :
  request_url proto (req s) = Ok url ->
  find_rule rules (req s) = Ok (Some x) ->
  handler x = Some (mkHandler (Some file) after) ->
  args x = VStr path ->
  req_method (req s) <> "OPTIONS" ->
  res s = fresh_response ->
  path <> "" -> existsSync path (disk s) = true ->
  let n := S (seq s) in
  let '(s', r) := forwardRequest rules proto s in
  r = Ok tt
  /\ seq s' = n
  /\ req_flowing (req s') = Some true
  /\ head (res s') = Some (200, "", acao_only)
  /\ piped (res s') = Some (VReadStream path)
  /\ finished (res s') = false /\ destroyed (res s') = None
  /\ trace s'
     = (trace s ++ ReqPause :: inspector_saw (inspector s) n (Some x)
          ++ RuleOnRequest n (VStr path) :: ReqResume
          :: ResSetHeader ACAO (VStr "*")
          :: ResWriteHead (VNum 200) (VStr "") (VObj Object_ [])
          :: inspector_heard (inspector s) n
               (VObj Object_ [("body", VReadStream path); ("statusCode", VNum 200)])
          ++ [ResPipeline (VReadStream path)])%list.
Proof.
  intros Hu Hf Hh Ha Hm Hres Hp He n.
  rewrite (forwardRequest_hook _ _ _ _ _ _ _ Hu Hf Hh Hm). fold n.
  destruct (intercepted_facts (Some x) s) as (Ir & Iq & In & Iw & Id & It).
  destruct (intercepted_journalled (Some x) s) as (Ij & Inone & _).
  rewrite Ha. unfold bind at 1. unfold file at 1. unfold bind, gets, ret.
  cbn [ra_args disk log]. rewrite Id, He, (is_empty_false _ Hp). cbn [orb negb].
  set (s1 := log (RuleOnRequest n (VStr path)) (intercepted (Some x) s)).
  assert (Hres1 : res s1 = fresh_response) by (cbn; rewrite Ir; exact Hres).
  pose proof (wrapped_cases n url (Some x) (VReadStream path) s1 Hres1 Ij
                eq_refl eq_refl) as C.
  cbv zeta in C. cbn [is_error is_readable] in C.
  destruct (coerce n url (Some x) (VReadStream path) s1) as [s' r].
  destruct C as (-> & Hq & Hs & _ & Hr & Ht).
  cbn [req seq trace inspector log s1] in Hq, Hs, Ht.
  rewrite Hq, Hs, Hr, Ht, Iq, In, It.
  rewrite (inspector_heard_same _ (inspector s) n _ (iff_sym Inone)).
  rewrite <- !app_assoc. repeat split; reflexivity.
Qed.

(** X4. A request that is no preflight and matches a [content] rule
    whose argument is a string is answered with that string: the head
    200 is written with [Access-Control-Allow-Origin: *] as its only
    header and the response ended with the string as its body (with no
    body for the empty string); no upstream request is opened. When the
    argument is absent, the hook answers [undefined] and the request is
    fetched from its own URL, nothing being written to the sink. *)
Theorem content_rule_answers_its_argument JSON_stringify rules proto s url x after :
  request_url proto (req s) = Ok url ->
  find_rule rules (req s) = Ok (Some x) ->
  handler x = Some (mkHandler (Some (content JSON_stringify)) after) ->
  req_method (req s) <> "OPTIONS" ->
  res s = fresh_response ->
  let n := S (seq s) in
  let '(s', r) := forwardRequest rules proto s in
  (forall text, args x = VStr text ->
     r = Ok tt
     /\ req_flowing (req s') = Some true
     /\ head (res s') = Some (200, "", acao_only)
     /\ finished (res s') = true
     /\ body (res s') = (if Str.is_empty text then None else Some text)
     /\ piped (res s') = None /\ destroyed (res s') = None
     /\ List.filter is_fetch (trace s') = List.filter is_fetch (trace s))
  /\ (is_nullish (args x) = true ->
      r = Ok tt
      /\ res s' = fresh_response
      /\ req_flowing (req s') = Some true
      /\ trace s'
         = (trace s ++ ReqPause :: inspector_saw (inspector s) n (Some x)
              ++ [RuleOnRequest n (args x);
                  HttpRequest (Str.startsWith "https" (protocol url)) url
                              (req_method (req s)) (req_headers (req s));
                  ReqPipeline; ReqResume])%list).
Proof.
  intros Hu Hf Hh Hm Hres n.
  rewrite (forwardRequest_hook _ _ _ _ _ _ _ Hu Hf Hh Hm). fold n.
  destruct (intercepted_facts (Some x) s) as (Ir & Iq & In & Iw & Id & It).
  destruct (intercepted_journalled (Some x) s) as (Ij & Inone & _).
  set (s1 := log (RuleOnRequest n (args x)) (intercepted (Some x) s)).
  assert (Hres1 : res s1 = fresh_response) by (cbn; rewrite Ir; exact Hres).
  assert (Hfetch : forall i v, List.filter is_fetch (inspector_saw i n v) = []).
  { intros [i|] v; reflexivity. }
  assert (Hfetch' : forall i v, List.filter is_fetch (inspector_heard i n v) = []).
  { intros [i|] v; reflexivity. }
  destruct (args x) as [| |b|z|text|u|e|p|k props] eqn:Ha.
  1, 2: unfold bind at 1; unfold content at 1; cbn [ra_args ret];
    cbn [coerce is_nullish orb]; rewrite fetch_run;
    (split; [intros text Hx; discriminate Hx|]); intros _;
    cbn [res req trace log set_req s1 resume with_flowing req_flowing
         req_method req_headers];
    rewrite Ir, Iq, It, <- !app_assoc;
    repeat split; solve [assumption | reflexivity].
  3: { unfold bind at 1. unfold content at 1. cbn [ra_args ret].
       pose proof (wrapped_cases n url (Some x) (VStr text) s1 Hres1 Ij
                     eq_refl eq_refl) as C.
       cbv zeta in C. cbn [is_error is_readable] in C.
       destruct (coerce n url (Some x) (VStr text) s1) as [s' r].
       destruct C as (-> & Hq & _ & _ & C).
       split; [|intros Hx; discriminate Hx]. intros ? [= <-].
       split; [reflexivity|]. rewrite Hq.
       split; [reflexivity|].
       unfold end_ in C. cbn [truthy] in C.
       destruct (Str.is_empty text); cbn [negb] in C; destruct C as [-> ->];
         cbn [head finished body piped destroyed trace log s1];
         rewrite It; repeat (rewrite List.filter_app; cbn [List.filter is_fetch app]);
         rewrite ?Hfetch, ?Hfetch', ?app_nil_r; repeat split; reflexivity. }
  all: match goal with |- (let '(s', r) := ?t in _) => destruct t as [s' r] end;
    (split; [intros text Hx; discriminate Hx | intros Hx; discriminate Hx]).
Qed.

(** X5. A [forward] rule whose argument is not a valid URL makes
    [forwardRequest] throw for every request it matches that is no
    preflight: the request has been counted, paused and reported to
    the inspector and the hook called, and then nothing more happens:
    the sink is untouched, the request stays paused and keeps its URL
    and headers, and no upstream request is opened. *)
Theorem forward_to_invalid_url_throws rules proto s url x after target e :
  request_url proto (req s) = Ok url ->
  find_rule rules (req s) = Ok (Some x) ->
  handler x = Some (mkHandler (Some forward) after) ->
  args x = VStr target ->
  req_method (req s) <> "OPTIONS" ->
  URL_parse target None = Throw e ->
  let n := S (seq s) in
  let '(s', r) := forwardRequest rules proto s in
  r = Throw e
  /\ res s' = res s
  /\ req s' = pause (req s)
  /\ seq s' = n
  /\ trace s' = (trace s ++ ReqPause :: inspector_saw (inspector s) n (Some x)
                   ++ [RuleOnRequest n (VStr target)])%list.
Proof.
  intros Hu Hf Hh Ha Hm Ht n.
  rewrite (forwardRequest_hook _ _ _ _ _ _ _ Hu Hf Hh Hm). fold n.
  destruct (intercepted_facts (Some x) s) as (Ir & Iq & In & Iw & Id & It).
  rewrite Ha. unfold bind at 1. unfold forward at 1.
  unfold bind, of_result. cbn [ra_args]. rewrite Ht.
  cbn [res req seq trace log]. rewrite Ir, Iq, In, It, <- !app_assoc.
  repeat split; reflexivity.
Qed.

(** The callback of the upstream request, for a rule without a
    response hook. *)
Lemma upstream_response_plain n rule response s :
  response_hook rule = None ->
  upstream_response n rule response s = onResponse n response s.
Proof.
  intros Hh. unfold upstream_response.
  destruct rule as [[nm a m [[q [hook|]]|]]|]; try discriminate Hh; reflexivity.
Qed.

Lemma to_int32_small z : -2147483648 <= z < 2147483648 -> to_int32 (VNum z) = z.
Proof.
  intros Hz. unfold to_int32. cbn [to_number].
  rewrite Z.mod_small by lia. lia.
Qed.

(** X6. The answer of the upstream server is relayed as it is. For a
    rule without a response hook, or no rule, and an upstream response
    with a status code in 100..999, a status message and headers none
    of which is undefined: the head written to the client has that
    status code and message and, name by name, the upstream's headers
    and no other (no CORS header is added), the upstream response is
    fed into the sink, which stays open, and nothing is thrown. *)
Theorem upstream_answer_is_relayed n rule props code msg cls hprops s :
  response_hook rule = None ->
  res s = fresh_response -> journalled n s ->
  assoc "statusCode" props = VNum code -> 100 <= code <= 999 ->
  assoc "statusMessage" props = VStr msg ->
  assoc "headers" props = VObj cls hprops -> headers_defined hprops = true ->
  assoc "body" props = VUndefined ->
  let response := VObj IncomingMessage_ props in
  let '(s', r) := upstream_response n rule response s in
  r = Ok tt
  /\ (exists hs,
        head (res s') = Some (code, msg, hs)
        /\ forall name, hs !! Str.toLowerCase name = last_named name hprops)
  /\ piped (res s') = Some response
  /\ finished (res s') = false /\ body (res s') = None
  /\ destroyed (res s') = None
  /\ req s' = req s
  /\ trace s' = (trace s ++ ResWriteHead (VNum code) (VStr msg) (VObj cls hprops)
                   :: inspector_heard (inspector s) n response
                   ++ [ResPipeline response])%list.
Proof.
  intros Hh Hres Hj Hsc Hrange Hsm Hhs Hdef Hb response.
  rewrite (upstream_response_plain _ _ _ _ Hh).
  pose proof (onResponse_cases n response s eq_refl Hj) as C. cbv zeta in C.
  destruct (onResponse n response s) as [s' r].
  destruct C as (-> & Hq & _ & _ & C). split; [reflexivity|].
  cbn [get response] in C. rewrite Hsc, Hsm, Hhs, Hb in C.
  cbn [coalesce is_nullish or_else truthy is_readable] in C.
  assert (Hcode : to_int32 (VNum code) = code) by (apply to_int32_small; lia).
  destruct (writeHead_accepts (VNum code) (VStr msg) (VObj cls hprops) (res s)
              eq_refl ltac:(rewrite Hres; reflexivity)
              ltac:(rewrite Hcode; exact Hrange) Hdef) as [r1 W].
  rewrite W in C. destruct C as [Hr Ht].
  assert (Hnone : head (res s) = None) by (rewrite Hres; reflexivity).
  destruct (writeHead_ok (VNum code) (VStr msg) (VObj cls hprops) (res s) r1
              eq_refl Hnone W)
    as (msg' & rm & Hhead & Hmerge & Hmsg).
  destruct (writeHead_frame _ _ _ _ _ W) as (Hbody & Hfin & Hpip & Hdes).
  rewrite Hr, Ht, Hq. cbn [head piped finished body destroyed pipe_into].
  rewrite Hhead, Hbody, Hfin, Hdes, Hres, Hcode, (Hmsg msg eq_refl).
  split; [|repeat split; reflexivity].
  exists (outHeaders rm). split; [reflexivity|].
  intros name. rewrite (merge_headers_lookup _ _ _ name Hmerge).
  cbn [own_props]. rewrite Hres.
  destruct (last_named name hprops); [reflexivity|]. apply lookup_empty.
Qed.

End Serving.

(** ** The order of rules *)

Section RuleOrder.
Context `{Platform}.

(** A first rule that matches is the rule found. *)
Lemma find_rule_head x rest r :
  match_ x r = Ok true -> find_rule (x :: rest) r = Ok (Some x).
Proof. intros Hm. cbn [find_rule]. rewrite Hm. reflexivity. Qed.

(** A rule added at the end does not change which rule is found. *)
Lemma find_rule_app rules r x more :
  find_rule rules r = Ok (Some x) -> find_rule (rules ++ more) r = Ok (Some x).
Proof.
  induction rules as [|y rest IH]; [discriminate|].
  cbn [find_rule app]. destruct (match_ y r) as [[]|]; auto.
Qed.

(** X7. The rule found for a request is the first one, in the order of
    registration, whose matcher answers true: every rule before it
    answered false. No rule is found when all answer false, and the
    search throws what the first matcher that throws has thrown, the
    rules before it having answered false. A rule registered later,
    with [addRule] or [addCustomRule], never takes a request from a
    rule registered before. *)
Theorem first_matching_rule_wins rules r :
  match find_rule rules r with
  | Ok (Some x) =>
      exists before after,
        rules = (before ++ x :: after)%list
        /\ Forall (fun y => match_ y r = Ok false) before
        /\ match_ x r = Ok true
  | Ok None => Forall (fun y => match_ y r = Ok false) rules
  | Throw e =>
      exists before x after,
        rules = (before ++ x :: after)%list
        /\ Forall (fun y => match_ y r = Ok false) before
        /\ match_ x r = Throw e
  end
  /\ (forall x path a nm q p h,
        find_rule rules r = Ok (Some x) ->
        find_rule (addRule path a nm q p h rules) r = Ok (Some x))
  /\ (forall x y,
        find_rule rules r = Ok (Some x) ->
        find_rule (addCustomRule y rules) r = Ok (Some x)).
Proof.
  split; [|split].
  - induction rules as [|y rest IH]; [constructor|].
    cbn [find_rule]. destruct (match_ y r) as [[]|e] eqn:E.
    + exists [], rest. repeat split; [constructor|exact E].
    + destruct (find_rule rest r) as [[x|]|e].
      * destruct IH as (before & after & -> & Hb & Hx).
        exists (y :: before), after. repeat split; [constructor; assumption|exact Hx].
      * constructor; assumption.
      * destruct IH as (before & x & after & -> & Hb & Hx).
        exists (y :: before), x, after.
        repeat split; [constructor; assumption|exact Hx].
    + exists [], y, rest. repeat split; [constructor|exact E].
  - intros x path a nm q p h Hf. unfold addRule. apply find_rule_app. exact Hf.
  - intros x y Hf. unfold addCustomRule. apply find_rule_app. exact Hf.
Qed.

(** The search throws what the first matcher that throws has thrown. *)
Lemma find_rule_throw before x after r e :
  Forall (fun y => match_ y r = Ok false) before ->
  match_ x r = Throw e ->
  find_rule (before ++ x :: after) r = Throw e.
Proof.
  intros Hb Hx. induction Hb as [|y rest Hy Hrest IH]; cbn [find_rule app].
  - rewrite Hx. reflexivity.
  - rewrite Hy. exact IH.
Qed.

(** X8. [forwardRequest] throws before it has done anything when the
    request's URL does not parse, and when the matcher of a rule
    throws, as it does for a pattern that does not compile, and no
    rule registered before it matches the request: the request is not
    counted, not paused and not reported, and nothing is written to
    the sink. *)
Theorem dispatch_throws_before_any_effect rules proto s e :
  request_url proto (req s) = Throw e
  \/ (exists url before x after,
        request_url proto (req s) = Ok url
        /\ rules = (before ++ x :: after)%list
        /\ Forall (fun y => match_ y (req s) = Ok false) before
        /\ match_ x (req s) = Throw e) ->
  forwardRequest rules proto s = (s, Throw e).
Proof.
  unfold request_url, forwardRequest, bind, gets, of_result.
  intros [Hu | (url & before & x & after & Hu & -> & Hb & Hx)]; rewrite Hu;
    [reflexivity|].
  rewrite (find_rule_throw _ _ _ _ _ Hb Hx). reflexivity.
Qed.

End RuleOrder.

(** ** The cache rule, from response to request *)

Section CacheRoundTrip.
Context `{Platform}.




(** The response hook for a request the request hook recorded: the
    directory is made if need be, the head written, and the body file
    opened when the response is a stream. *)
Lemma CacheRule_onResponse_run n response f ttl s :
  requests s !! n = Some (f, ttl) ->
  CacheRule_onResponse (mkResponseArgs n response) s
  = (set_disk (disk_written f response (now s) (disk s))
              (log (FsWriteFile (headFile f)) s),
     Ok VUndefined).
Proof.
  intros Hn. unfold CacheRule_onResponse, bind, gets, modify, ret.
  cbn [rs_seq rs_res]. rewrite Hn. unfold disk_written, head_written.
  destruct s as [q r c i t d w tm tr]. cbn [disk now].
  destruct (existsSync (cf_dir f) d); cbn [negb];
    destruct (is_readable response); reflexivity.
Qed.


End CacheRoundTrip.

(** ** The cache key and the port *)

Section CacheKey.
Context `{Platform}.

Lemma replace_first_free c by_ x :
  free_of c x = true -> Str.replace_first c by_ x = x.
Proof.
  unfold free_of. induction x as [|d r IH]; [reflexivity|].
  cbn [list_ascii_of_string forallb Str.replace_first]. intros Hx.
  apply andb_true_iff in Hx as [Hd Hr]. apply negb_true_iff in Hd.
  rewrite Hd, (IH Hr). reflexivity.
Qed.

Lemma replace_first_at c by_ a r :
  free_of c a = true ->
  Str.replace_first c by_ (a +:+ String c r) = a +:+ by_ +:+ r.
Proof.
  unfold free_of. induction a as [|d a' IH].
  - intros _. change (Str.replace_first c by_ (String c r) = by_ +:+ r).
    cbn [Str.replace_first]. rewrite Ascii.eqb_refl. reflexivity.
  - cbn [list_ascii_of_string forallb]. intros Hx.
    apply andb_true_iff in Hx as [Hd Hr]. apply negb_true_iff in Hd.
    change (Str.replace_first c by_ (String d (a' +:+ String c r))
            = String d (a' +:+ by_ +:+ r)).
    cbn [Str.replace_first]. rewrite Hd, (IH Hr). reflexivity.
Qed.

(** X10. The cache does not tell a port from a path segment. Only the
    first colon of host and path is turned into a slash, and nothing
    else marks the port: a request to host [h:p] with path [q] and a
    request to host [h] with path [/p] followed by [q] select the same
    cache files, when the methods and the queries agree. *)
Theorem port_and_path_share_cache_files dir r1 r2 cbq d u1 u2 h p :
  cache_url r1 = Ok u1 -> cache_url r2 = Ok u2 ->
  host u1 = h +:+ ":" +:+ p ->
  host u2 = h -> pathname u2 = "/" +:+ p +:+ pathname u1 ->
  free_of ":" h = true -> free_of ":" (p +:+ pathname u1) = true ->
  req_method r2 = req_method r1 -> search u2 = search u1 ->
  getCacheFile dir r2 cbq d = getCacheFile dir r1 cbq d.
Proof.
  unfold cache_url. intros Hu1 Hu2 Hh1 Hh2 Hp2 Fh Fp Hm Hs.
  unfold getCacheFile. rewrite Hu1, Hu2, Hm, Hs, Hh1, Hh2, Hp2.
  assert (E1 : Str.replace_first ":" "/" ((h +:+ ":" +:+ p) +:+ pathname u1)
               = h +:+ "/" +:+ p +:+ pathname u1).
  { replace ((h +:+ ":" +:+ p) +:+ pathname u1)
      with (h +:+ String ":" (p +:+ pathname u1)).
    - apply replace_first_at. exact Fh.
    - clear. induction h as [|c h' IH]; [reflexivity|].
      change (String c (h' +:+ String ":" (p +:+ pathname u1))
              = String c ((h' +:+ ":" +:+ p) +:+ pathname u1)).
      rewrite IH. reflexivity. }
  assert (E2 : Str.replace_first ":" "/" (h +:+ "/" +:+ p +:+ pathname u1)
               = h +:+ "/" +:+ p +:+ pathname u1).
  { apply replace_first_free. unfold free_of in *.
    clear - Fh Fp. induction h as [|c h' IH].
    - exact Fp.
    - change (list_ascii_of_string (String c h' +:+ "/" +:+ p +:+ pathname u1))
        with (c :: list_ascii_of_string (h' +:+ "/" +:+ p +:+ pathname u1)).
      cbn [list_ascii_of_string forallb] in *.
      apply andb_true_iff in Fh as [Hc Hr]. rewrite Hc. cbn [andb]. auto. }
  rewrite E1, E2. reflexivity.
Qed.

End CacheKey.

(** ** The journal *)

Section Entries.

(** X11. The journal entry of a request. [onRequest] files under the
    request's number an entry with the request's URL, method and HTTP
    version and the name of the rule; [onRespond] for that number then
    adds the status code, the status message and the headers of the
    response (an empty object for absent headers) and keeps the rest;
    no other entry changes and neither call throws. [onRespond] for a
    number under which nothing is filed throws a [TypeError] and
    changes nothing. *)
Theorem journal_entry_of_a_request n rule response s i :
  inspector s = Some i ->
  is_nullish response = false ->
  let '(s1, r1) := Insp.onRequest n rule s in
  let '(s2, r2) := Insp.onRespond n response s1 in
  r1 = Ok tt /\ r2 = Ok tt
  /\ (exists i2 e,
        inspector s2 = Some i2 /\ insp_dir i2 = insp_dir i
        /\ entries i2 !! n = Some e
        /\ entry_seq e = n
        /\ ireq_url (entry_req e) = req_url (req s)
        /\ ireq_method (entry_req e) = req_method (req s)
        /\ ireq_httpVersion (entry_req e) = req_httpVersion (req s)
        /\ entry_rule e = rule
        /\ entry_res e
           = Some (mkIRes (match get response "headers" with
                           | VUndefined => VObj Object_ []
                           | h => h
                           end)
                          (get response "statusCode")
                          (get response "statusMessage"))
        /\ forall m, m <> n -> entries i2 !! m = entries i !! m)
  /\ forall m, entries i !! m = None ->
               Insp.onRespond m response s = (s, Throw TypeError).
Proof.
  intros Hi Hv.
  unfold Insp.onRequest. rewrite Hi. unfold bind.
  match goal with |- context [Insp.save ?x] =>
    destruct (save_ok x) as (sa & Hs & _);
    destruct (save_journal x _ eq_refl) as (ia & Hia & Hea & Hda & _);
    rewrite Hs in Hia |- *; cbn [fst] in Hia end.
  cbn [modify]. unfold Insp.onRespond. cbn [inspector set_req].
  rewrite Hia, Hv, Hea. cbn [entries Insp.with_entries].
  rewrite lookup_insert_eq. unfold bind.
  match goal with |- context [Insp.save ?x] =>
    destruct (save_ok x) as (sb & Hsb & _);
    destruct (save_journal x _ eq_refl) as (ib & Hib & Heb & Hdb & _);
    rewrite Hsb in Hib |- *; cbn [fst] in Hib end.
  destruct (is_readable _); cbn [modify ret];
    (split; [reflexivity|]); (split; [reflexivity|]);
    (split; [|intros m Hm; rewrite Hi, Hm; reflexivity]);
    cbn [entries Insp.with_entries insp_dir inspector set_inspector set_req]
      in Heb, Hdb, Hda;
    exists ib; eexists; cbn [inspector set_disk];
    rewrite Heb, Hdb, Hda, lookup_insert_eq;
    (split; [exact Hib|]); (split; [reflexivity|]); (split; [reflexivity|]);
    cbn [entry_seq entry_req entry_rule entry_res ireq_url ireq_method
         ireq_httpVersion];
    repeat (split; [reflexivity|]);
    intros m Hm; rewrite !lookup_insert_ne by congruence; reflexivity.
Qed.

(** X12. Every journal update that comes later than the time kept in
    [nextSaveTime] arms a timer of its own and clears none: after a
    burst of such updates every timer that was pending is still
    pending, and there is one more for each update. *)
Theorem every_late_update_arms_a_timer times : forall i t,
  handles_fresh t ->
  Forall (fun now => nextSaveTime i < now /\ 4000 < now) times ->
  let '(i', t') := updates times i t in
  size (pending t') = (size (pending t) + List.length times)%nat
  /\ next_handle t' = (next_handle t + List.length times)%nat
  /\ (forall h due, pending t !! h = Some due -> pending t' !! h = Some due).
Proof.
  induction times as [|now rest IH]; intros i t Hf Hall.
  - cbn. repeat split; auto; lia.
  - apply Forall_cons in Hall as [[Hlate H4000] Hrest].
    cbn [updates]. rewrite (saveEntries_late _ _ _ Hlate).
    destruct (handles_fresh_arm t (now + 4000) Hf) as [Hf' Hnone].
    specialize (IH (mkInspector (insp_dir i) (entries i) 4000 (Some (next_handle t)))
                   (mkTimers (S (next_handle t))
                             (<[next_handle t := now + 4000]> (pending t)))
                   Hf').
    cbn [nextSaveTime] in IH.
    assert (Hrest' : Forall (fun now0 => 4000 < now0 /\ 4000 < now0) rest).
    { eapply Forall_impl; [exact Hrest|]. cbn. intros a [_ Ha]. split; exact Ha. }
    specialize (IH Hrest').
    destruct (updates rest _ _) as [i' t'].
    destruct IH as (Hsize & Hnext & Hkeep).
    cbn [pending next_handle List.length] in *.
    rewrite (map_size_insert_None _ _ _ Hnone) in Hsize.
    split; [lia|]. split; [lia|].
    intros h due Hh. apply Hkeep. rewrite lookup_insert_ne; [exact Hh|].
    intros <-. rewrite Hnone in Hh. discriminate.
Qed.

End Entries.

(** ** The command line *)

Section CommandLine.
Context `{Platform}.

Lemma split_free sep a : free_of sep a = true -> Str.split sep a = [a].
Proof.
  unfold free_of. induction a as [|d a' IH]; [reflexivity|].
  cbn [list_ascii_of_string forallb Str.split]. intros Hx.
  apply andb_true_iff in Hx as [Hd Hr]. apply negb_true_iff in Hd.
  rewrite Hd, (IH Hr). reflexivity.
Qed.

Lemma split_at sep a b :
  free_of sep a = true ->
  Str.split sep (a +:+ String sep b) = a :: Str.split sep b.
Proof.
  unfold free_of. induction a as [|d a' IH].
  - intros _. change (Str.split sep (String sep b) = "" :: Str.split sep b).
    cbn [Str.split]. rewrite Ascii.eqb_refl. reflexivity.
  - cbn [list_ascii_of_string forallb]. intros Hx.
    apply andb_true_iff in Hx as [Hd Hr]. apply negb_true_iff in Hd.
    change (Str.split sep (String d (a' +:+ String sep b))
            = String d a' :: Str.split sep b).
    cbn [Str.split]. rewrite Hd, (IH Hr). reflexivity.
Qed.

Lemma append_assoc (a b c : string) : (a +:+ b) +:+ c = a +:+ b +:+ c.
Proof.
  induction a as [|d a' IH]; [reflexivity|].
  change (String d ((a' +:+ b) +:+ c) = String d (a' +:+ b +:+ c)).
  rewrite IH. reflexivity.
Qed.

(** The pieces of a rule string with two bars or more. *)
Lemma split_rule name path arg :
  free_of "|" name = true -> free_of "|" path = true -> free_of "|" arg = true ->
  Str.split "|" (name +:+ "|" +:+ path +:+ "|" +:+ arg) = [name; path; arg]
  /\ forall rest,
       exists more,
         Str.split "|" ((name +:+ "|" +:+ path +:+ "|" +:+ arg) +:+ "|" +:+ rest)
         = name :: path :: arg :: more.
Proof.
  intros Hn Hp Ha. split.
  - change (name +:+ "|" +:+ path +:+ "|" +:+ arg)
      with (name +:+ String "|" (path +:+ String "|" arg)).
    rewrite (split_at _ _ _ Hn), (split_at _ _ _ Hp), (split_free _ _ Ha).
    reflexivity.
  - intros rest. exists (Str.split "|" rest).
    rewrite !append_assoc.
    change (name +:+ "|" +:+ path +:+ "|" +:+ arg +:+ "|" +:+ rest)
      with (name +:+ String "|" (path +:+ String "|" (arg +:+ String "|" rest))).
    rewrite (split_at _ _ _ Hn), (split_at _ _ _ Hp), (split_at _ _ _ Ha).
    reflexivity.
Qed.

(** The group of a path written between parentheses. *)
Lemma group_of_parenthesised inner :
  all_chars (fun c => negb (Cli.is_line_terminator c)) inner = true ->
  Cli.group ("(" +:+ inner +:+ ")") = Some inner.
Proof.
  intros Hin. change (Cli.before_closing (inner +:+ ")") = Some inner).
  unfold all_chars in Hin. induction inner as [|c r IH]; [reflexivity|].
  cbn [list_ascii_of_string forallb] in Hin.
  apply andb_true_iff in Hin as [Hc Hr]. apply negb_true_iff in Hc.
  change (Cli.before_closing (String c (r +:+ ")")) = Some (String c r)).
  cbn [Cli.before_closing].
  destruct (r +:+ ")") as [|d r'] eqn:E.
  - destruct r; discriminate E.
  - rewrite Hc, (IH Hr). reflexivity.
Qed.

(** X13. How a rule string is taken apart. Of a string with two bars
    or more, only the text before the first bar, between the first
    and the second and between the second and the third is used: what
    follows a third bar is dropped. The first piece is the rule's
    name, the third its argument. A second piece written between
    parentheses, with something between them, is compiled to a
    [RegExp] of what is between them, and the rule is not registered
    if that does not compile; any other second piece is a string
    pattern as it stands. A string without a bar has no pattern and no
    argument. *)
Theorem rule_string_is_cut_at_bars name path arg :
  free_of "|" name = true -> free_of "|" path = true -> free_of "|" arg = true ->
  let r := name +:+ "|" +:+ path +:+ "|" +:+ arg in
  (forall rest, Cli.parse (r +:+ "|" +:+ rest) = Cli.parse r)
  /\ (forall inner,
        path = "(" +:+ inner +:+ ")" -> inner <> "" ->
        all_chars (fun c => negb (Cli.is_line_terminator c)) inner = true ->
        Cli.parse r
        = match RegExp_test (mkRegExp inner "") "" with
          | Ok _ =>
              Ok (Cli.mkRuleString name (Some (PRegExp (mkRegExp inner ""))) (VStr arg))
          | Throw e => Throw e
          end)
  /\ (Cli.group path = None \/ path = "()" ->
      Cli.parse r = Ok (Cli.mkRuleString name (Some (PString path)) (VStr arg)))
  /\ Cli.parse name = Ok (Cli.mkRuleString name None VUndefined).
Proof.
  intros Hn Hp Ha r.
  destruct (split_rule name path arg Hn Hp Ha) as [Hsplit Hmore].
  split; [|split; [|split]].
  - intros rest. destruct (Hmore rest) as [more Hm].
    unfold Cli.parse. fold r in Hsplit, Hm. rewrite Hm, Hsplit. reflexivity.
  - intros inner -> Hne Hin. unfold Cli.parse. fold r in Hsplit.
    rewrite Hsplit. cbn [Cli.element nth_error Cli.or_undefined].
    rewrite (group_of_parenthesised _ Hin).
    destruct inner as [|c g]; [congruence|].
    unfold Cli.new_RegExp. destruct (RegExp_test _ _); reflexivity.
  - intros Hg. unfold Cli.parse. fold r in Hsplit.
    rewrite Hsplit. cbn [Cli.element nth_error Cli.or_undefined].
    destruct Hg as [-> | ->]; reflexivity.
  - unfold Cli.parse. rewrite (split_free _ _ Hn). reflexivity.
Qed.



Lemma split_join sep lines :
  lines <> [] -> Forall (fun l => free_of sep l = true) lines ->
  Str.split sep (Str.join (String sep "") lines) = lines.
Proof.
  unfold Str.join. induction lines as [|l rest IH]; [congruence|].
  intros _ Hall. apply Forall_cons in Hall as [Hl Hrest].
  destruct rest as [|l2 rest'].
  - cbn [String.concat]. apply split_free. exact Hl.
  - change (String.concat (String sep "") (l :: l2 :: rest'))
      with (l +:+ String sep (String.concat (String sep "") (l2 :: rest'))).
    rewrite (split_at _ _ _ Hl), IH; [reflexivity|discriminate|exact Hrest].
Qed.

(** X15. The rules of a rule file. The rules given as options come
    first, in their order, then the lines of the rule file, in theirs,
    each exactly as written, leading and trailing blanks included; the
    lines that are empty or blank are left out. *)
Theorem rule_file_lines_follow_the_options opts lines :
  lines <> [] -> Forall (fun l => free_of Cli.newline l = true) lines ->
  Cli.rule_strings opts (Some (Str.join (String Cli.newline "") lines))
  = (opts ++ List.filter (fun l => negb (Str.is_empty (Str.trim l))) lines)%list.
Proof.
  intros Hne Hall. unfold Cli.rule_strings, Cli.rule_lines.
  rewrite (split_join _ _ Hne Hall). reflexivity.
Qed.

End CommandLine.

(** ** Forwarding and caching, through the engine *)

Section Through.
Context `{Platform}.


(** X17. A cache miss, through the engine. A request that is no
    preflight and matches a cache rule, and whose head file does not
    exist, is recorded in the cache table under its number and fetched
    from its own URL, nothing being written to the sink. When the
    upstream answer arrives, the rule's response hook runs before the
    emitter: the head file is written first, then the head goes to the
    client and the answer is fed into the sink, and nothing is thrown;
    the entry stays in the table. *)
Theorem cache_miss_is_fetched_and_stored
        rules proto s url x dir ttl cbq f props :
  request_url proto (req s) = Ok url ->
  find_rule rules (req s) = Ok (Some x) ->
  handler x = Some (CacheRule dir) ->
  args x = cache_args ttl cbq ->
  req_method (req s) <> "OPTIONS" ->
  res s = fresh_response ->
  getCacheFile dir (pause (req s)) (by_query cbq) (disk s) = Ok f ->
  exist f = false ->
  let n := S (seq s) in
  let response := VObj IncomingMessage_ props in
  let '(s1, r1) := forwardRequest rules proto s in
  let '(s2, r2) := upstream_response n (Some x) response s1 in
  r1 = Ok tt
  /\ requests s1 = <[n := (f, ttl)]> (requests s)
  /\ res s1 = fresh_response
  /\ disk s1 = disk s
  /\ trace s1
     = (trace s ++ ReqPause :: inspector_saw (inspector s) n (Some x)
          ++ [RuleOnRequest n (cache_args ttl cbq);
              HttpRequest (Str.startsWith "https" (protocol url)) url
                          (req_method (req s)) (req_headers (req s));
              ReqPipeline; ReqResume])%list
  /\ r2 = Ok tt
  /\ requests s2 = requests s1
  /\ exists rest,
       trace s2
       = (trace s1 ++ RuleOnResponse n response :: FsWriteFile (headFile f)
            :: ResWriteHead (coalesce (assoc "statusCode" props) (VNum 500))
                            (coalesce (assoc "statusMessage" props) (VStr ""))
                            (or_else (assoc "headers" props) (VObj Object_ []))
            :: rest)%list.
Proof.
  intros Hu Hf Hh Ha Hm Hres Hfile Hex n response.
  unfold CacheRule in Hh.
  rewrite (forwardRequest_hook _ _ _ _ _ _ _ Hu Hf Hh Hm). fold n.
  destruct (intercepted_facts (Some x) s) as (Ir & Iq & In & Iw & Id & It).
  destruct (intercepted_journalled (Some x) s) as (Ij & Inone & _).
  rewrite Ha. unfold bind at 1.
  set (s0 := log (RuleOnRequest n (cache_args ttl cbq)) (intercepted (Some x) s)).
  assert (Hfile0 : getCacheFile dir (req s0) (by_query cbq) (disk s0) = Ok f).
  { unfold s0. cbn [req disk log]. rewrite Iq, Id. exact Hfile. }
  rewrite (CacheRule_onRequest_unfold _ _ _ _ _ _ Hfile0). cbv zeta.
  rewrite Hex. cbn [coerce is_nullish orb]. rewrite fetch_run.
  set (s1 := set_req _ _).
  assert (Hj1 : journalled n s1) by exact Ij.
  assert (Ht1 : requests s1 !! n = Some (f, ttl)).
  { unfold s1, s0. cbn [requests set_req log set_requests]. apply lookup_insert_eq. }
  unfold upstream_response. destruct x as [nm a m h]. cbn [handler] in Hh.
  subst h. cbn [upstream_response]. unfold bind, modify.
  assert (Ht1' : requests (log (RuleOnResponse n response) s1) !! n = Some (f, ttl))
    by exact Ht1.
  rewrite (CacheRule_onResponse_run _ _ _ _ _ Ht1'). cbn [ret].
  match goal with |- context [onResponse n response ?y] =>
    pose proof (onResponse_cases n response y eq_refl Hj1) as C;
    cbv zeta in C; destruct (onResponse n response y) as [s2 r2] end.
  destruct C as (-> & _ & _ & Hq2 & C).
  cbn [requests set_disk log] in Hq2.
  split; [reflexivity|].
  split; [unfold s1, s0; cbn [requests set_req log set_requests]; rewrite Iw;
          reflexivity|].
  split; [unfold s1, s0; cbn [res set_req log set_requests]; rewrite Ir;
          exact Hres|].
  split; [unfold s1, s0; cbn [disk set_req log set_requests]; exact Id|].
  split.
  { unfold s1, s0.
    cbn [trace set_req log set_requests req req_method req_headers].
    rewrite It, Iq, <- !app_assoc. reflexivity. }
  split; [reflexivity|]. split; [exact Hq2|].
  cbn [trace set_disk log res get response] in C.
  destruct (writeHead _ _ _ (res s1)) as [r1|e].
  - destruct (is_readable _); [|destruct (end_ _ r1)]; destruct C as [_ ->];
      rewrite <- !app_assoc; eexists; reflexivity.
  - destruct C as [_ ->]. rewrite <- !app_assoc. eexists. reflexivity.
Qed.

End Through.

(** ** The scheme of a pattern *)

Section Scheme.


End Scheme.

(** ** The properties at concrete requests, on the reference platform *)

Import Runtime Scenario.



(** C2, as the code has it. With the rule [file|/a.js|/missing] and the
    request [GET http://x/a.js], the hook's [{ statusCode: 404 }] is
    wrapped as a body: the head is written with status 200, the object
    is refused as a body and the sink is destroyed. No 404 is
    written. *)
Theorem missing_file_is_answered_200 :
  let '(s', r) :=
    forwardRequest file_rules "http" (idle (request "GET" "http://x/a.js" "x")) in
  r = Ok tt
  /\ head_status (res s') = Some 200
  /\ destroyed (res s') = Some ERR_INVALID_ARG_TYPE
  /\ trace s' =
       [ReqPause;
        RuleOnRequest 1 (VStr "/missing");
        ReqResume;
        ResSetHeader ACAO (VStr "*");
        ResWriteHead (VNum 200) (VStr "") (VObj Object_ []);
        ResEnd (VObj Object_ [("statusCode", VNum 404)]);
        ResDestroy ERR_INVALID_ARG_TYPE;
        OnError FORWARD ERR_INVALID_ARG_TYPE].
Proof. vm_compute. repeat split; reflexivity. Qed.

(** A file that exists is served as a stream with status 200, and the
    inspector journals the request and the response: each of the two
    arms a flush of its own. *)
Lemma served_file_is_journalled :
  let s' := fst (forwardRequest served_rules "http"
                                (watched (request "GET" "http://x/a.js" "x"))) in
  trace s' =
    [ReqPause;
     InspectorOnRequest 1 (Some "file");
     RuleOnRequest 1 (VStr "/srv/a.js");
     ReqResume;
     ResSetHeader ACAO (VStr "*");
     ResWriteHead (VNum 200) (VStr "") (VObj Object_ []);
     InspectorOnRespond 1
       (VObj Object_ [("body", VReadStream "/srv/a.js"); ("statusCode", VNum 200)]);
     ResPipeline (VReadStream "/srv/a.js")]
  /\ head_status (res s') = Some 200
  /\ piped (res s') = Some (VReadStream "/srv/a.js")
  /\ files (disk s') !! "/insp/1.res" = Some (StreamedFrom (VReadStream "/srv/a.js"))
  /\ size (pending (timers s')) = 2%nat.
Proof. vm_compute. repeat split; reflexivity. Qed.

(** C5, as the code has it. With the rule that forwards [/api/...] to
    [https://upstream/v2/] and the request [GET http://x/api/u], the
    hook leaves [stream/v2/] as the request's URL, not [/v2/]; the
    [host] header is [upstream], and the upstream request goes to the
    URL the hook returned, path [/v2/], with that header. *)
Theorem forward_rewrites_url_wrongly :
  let '(s', r) :=
    forwardRequest forward_rules "http" (idle (request "GET" "http://x/api/u" "x")) in
  r = Ok tt
  /\ req_url (req s') = "stream/v2/"
  /\ req_headers (req s') = {[ "host" := "upstream" ]}
  /\ trace s' =
       [ReqPause;
        RuleOnRequest 1 (VStr "https://upstream/v2/");
        HttpRequest true (mkURL "https:" "upstream" "/v2/" "" "") "GET"
                    {[ "host" := "upstream" ]};
        ReqPipeline;
        ReqResume].
Proof. vm_compute. repeat split; reflexivity. Qed.

(** Even forwarding to the host the request came for loses the slash
    that starts the path. *)
Lemma forward_same_host_drops_the_slash :
  req_url (req (fst (forward (mkRequestArgs 1 (VStr "https://x/v2/"))
                             (idle (request "GET" "http://x/api/u" "x")))))
  = "v2/".
Proof. vm_compute. reflexivity. Qed.

(** A fresh proxy, and a response hook called for request 7. *)
Lemma cache_response_without_request_witness :
  let s := idle (request "GET" "http://x/" "x") in
  requests s !! 7%nat = None
  /\ CacheRule_onResponse
       (mkResponseArgs 7 (VObj IncomingMessage_ [("statusCode", VNum 200)])) s
     = (s, Throw TypeError).
Proof.
  intros s. split; [reflexivity|].
  exact (@cache_response_without_request 7 _ s eq_refl).
Defined.

(** The engine itself can make that call: a custom rule that has the
    cache rule's response hook but not its request hook. *)
Lemma tap_rule_response_throws :
  snd (upstream_response 1 (Some response_only_rule)
         (VObj IncomingMessage_ [("statusCode", VNum 200)])
         (idle (request "GET" "http://x/" "x")))
  = Throw TypeError.
Proof. vm_compute. reflexivity. Qed.


(** The cache rule end to end, with a lifetime of 60 seconds: the
    first request is fetched and its answer stored; a second request
    30 seconds later, whatever its query, is served from the stored
    head and body without a fetch; 61 seconds later it is fetched
    again. *)
Lemma cache_round_trip :
  List.filter is_fetch (trace first_pass) <> []
  /\ files (disk answered) !! "/cache/x/img/GET.head" = Some (JsonText stored_head)
  /\ head_status (res (second_pass (epoch + 30000))) = Some 200
  /\ piped (res (second_pass (epoch + 30000)))
     = Some (VReadStream "/cache/x/img/GET.body")
  /\ List.filter is_fetch (trace (second_pass (epoch + 30000))) = []
  /\ List.filter is_fetch (trace (second_pass (epoch + 61000))) <> []
  /\ head_status (res (second_pass (epoch + 61000))) = None.
Proof. vm_compute. repeat split; try reflexivity; discriminate. Qed.

(** Two requests for [/img] with different queries: without
    [cacheByQuery] they select the same file; with it, the file of the
    first is named after the digest of its query. *)
Lemma cache_key_witness :
  let r1 := request "GET" "/img?a=1" "x" in
  let r2 := request "GET" "/img?b=2" "x" in
  cache_url r1 = Ok (mkURL "http:" "x" "/img" "?a=1" "")
  /\ getCacheFile "/cache" r2 (VBool false) empty_fs
     = getCacheFile "/cache" r1 (VBool false) empty_fs
  /\ (headFile <$> (match getCacheFile "/cache" r1 (VBool true) empty_fs with
                    | Ok f => Some f
                    | Throw _ => None
                    end))
     = Some "/cache/x/img/GET.af6075d2563985008672787c0975faad.head".
Proof.
  intros r1 r2.
  assert (Hu : cache_url r1 = Ok (mkURL "http:" "x" "/img" "?a=1" ""))
    by (vm_compute; reflexivity).
  assert (Hm : req_method r1 <> "") by discriminate.
  assert (Hd : md5_hex (search (mkURL "http:" "x" "/img" "?a=1" "")) <> "")
    by (vm_compute; discriminate).
  split; [exact Hu|]. split.
  - destruct (@cache_key_of_host_path platform "/cache" r1 (VBool false) empty_fs
                                       _ Hu Hm Hd)
      as (_ & Hsame & _).
    apply (Hsame eq_refl r2 (mkURL "http:" "x" "/img" "?b=2" ""));
      solve [reflexivity | vm_compute; reflexivity].
  - destruct (@cache_key_of_host_path platform "/cache" r1 (VBool true) empty_fs
                                       _ Hu Hm Hd)
      as (Hfile & _).
    rewrite Hfile. vm_compute. reflexivity.
Defined.


(** A rule whose hook answers [false]: the sink stays untouched and the
    request paused. *)
Lemma suppress_witness :
  let s := idle (request "GET" "http://x/own" "x") in
  let s' := fst (forwardRequest suppress_rules "http" s) in
  find_rule suppress_rules (req s) = Ok (hd_error suppress_rules)
  /\ res s' = fresh_response
  /\ req_flowing (req s') = Some false.
Proof.
  intros s s'.
  assert (Hf : find_rule suppress_rules (req s) = Ok (hd_error suppress_rules))
    by (vm_compute; reflexivity).
  split; [exact Hf|].
  destruct (@suppress_leaves_request_paused platform suppress_rules "http" s
              (mkURL "http:" "x" "/own" "" "")
              (mkRule (Some "own") VUndefined (rule_match (PString "/own"))
                      (Some (mkHandler (Some (fun _ => ret (VBool false))) None)))
              (fun _ => ret (VBool false))
              (log (RuleOnRequest 1 VUndefined)
                   (intercepted (hd_error suppress_rules) s))
              ltac:(vm_compute; reflexivity) Hf
              ltac:(eexists; reflexivity) ltac:(discriminate) eq_refl)
    as (_ & _ & _ & _ & _ & Hres & Hreq).
  split; [exact (Hres eq_refl)|exact (Hreq eq_refl)].
Defined.



(** C9, as the code has it. An inspector constructed at [epoch] gets
    two journal updates one millisecond apart, ten seconds later: each
    arms a timer of its own, 4000 ms ahead, none is cleared, and by the
    time both have fired [index.json] has been written twice. *)
Theorem burst_is_flushed_twice :
  let '(i, t) := updates [epoch + 10000; epoch + 10001] journal no_timers in
  pending t = {[ 0%nat := epoch + 14000; 1%nat := epoch + 14001 ]}
  /\ flushes "/insp" (Insp.run_until (epoch + 20000)
                (arrival (request "GET" "http://x/" "x") 2 (Some i) ∅ empty_fs
                         (epoch + 10001) t)) = 2%nat.
Proof. vm_compute. split; reflexivity. Qed.

(** An update in the very millisecond of construction asks for a delay
    of [epoch + 2000] milliseconds, which is beyond what a timer
    takes: the flush is due one millisecond later. *)
Lemma first_update_in_the_millisecond_of_construction :
  pending (snd (Insp.saveEntries epoch journal no_timers)) = {[ 0%nat := epoch + 1 ]}.
Proof. vm_compute. reflexivity. Qed.

(** Ten seconds after construction: three updates, three timers. *)
Lemma one_timer_per_update_example :
  size (pending (snd (updates [epoch + 10000; epoch + 10001; epoch + 10002]
                              journal no_timers))) = 3%nat.
Proof.
  pose proof (one_timer_per_update [epoch + 10000; epoch + 10001; epoch + 10002]
                journal no_timers) as W.
  destruct (updates _ journal no_timers) as [i t].
  destruct W as [Hsize _].
  - intros h due Hl. vm_compute in Hl. discriminate Hl.
  - repeat constructor; vm_compute; reflexivity.
  - cbn [snd]. rewrite Hsize. reflexivity.
Qed.

(** ** The further properties at concrete requests *)

Import Cases.

(** A 404 with a body of its own, emitted on a fresh sink. *)
Lemma emitter_never_throws_witness :
  let s := idle (request "GET" "/" "x") in
  is_nullish gone = false
  /\ journalled 1 s
  /\ snd (onResponse 1 gone s) = Ok tt
  /\ trace (fst (onResponse 1 gone s))
     = [ResWriteHead (VNum 404) (VStr "") (VObj Object_ []); ResEnd (VStr "gone")].
Proof.
  intros s.
  assert (Hj : journalled 1 s) by (intros i Hi; discriminate Hi).
  split; [reflexivity|]. split; [exact Hj|].
  pose proof (emitter_never_throws 1 gone s eq_refl Hj) as W.
  destruct (onResponse 1 gone s) as [s' r] eqn:E.
  destruct W as (Hr & _). split; [exact Hr|].
  replace s' with (fst (onResponse 1 gone s)) by (rewrite E; reflexivity).
  vm_compute. reflexivity.
Defined.

(** A hook that answers the number 5: the head 200 goes out, then the
    sink is destroyed. *)
Lemma wrapped_value_is_emitted_witness :
  let s := idle (request "GET" "/" "x") in
  let u := mkURL "http:" "x" "/" "" "" in
  res s = fresh_response /\ journalled 1 s
  /\ outcome_of (VNum 5) = Synth /\ is_rule_response (VNum 5) = false
  /\ destroyed (res (fst (coerce 1 u None (VNum 5) s))) = Some ERR_INVALID_ARG_TYPE
  /\ finished (res (fst (coerce 1 u None (VNum 5) s))) = false.
Proof.
  intros s u.
  assert (Hj : journalled 1 s) by (intros i Hi; discriminate Hi).
  split; [reflexivity|]. split; [exact Hj|].
  split; [reflexivity|]. split; [reflexivity|].
  pose proof (wrapped_value_is_emitted 1 u None (VNum 5) s eq_refl Hj
                eq_refl eq_refl) as W.
  destruct (coerce 1 u None (VNum 5) s) as [s' r].
  destruct W as (_ & _ & _ & _ & _ & Hd).
  destruct (Hd eq_refl eq_refl ltac:(discriminate)) as (Hdes & Hfin & _).
  split; [exact Hdes|exact Hfin].
Defined.

(** [GET http://x/a.js] under [file|/a.js|/srv/a.js], with the
    inspector watching. *)
Lemma existing_file_is_streamed_witness :
  let s := watched (request "GET" "http://x/a.js" "x") in
  let s' := fst (forwardRequest served_rules "http" s) in
  find_rule served_rules (req s) = Ok (hd_error served_rules)
  /\ existsSync "/srv/a.js" (disk s) = true
  /\ head (res s') = Some (200, "", acao_only)
  /\ piped (res s') = Some (VReadStream "/srv/a.js")
  /\ finished (res s') = false.
Proof.
  intros s s'.
  assert (Hf : find_rule served_rules (req s) = Ok (hd_error served_rules))
    by (apply find_rule_head; vm_compute; reflexivity).
  assert (He : existsSync "/srv/a.js" (disk s) = true) by (vm_compute; reflexivity).
  split; [exact Hf|]. split; [exact He|].
  pose proof (@existing_file_is_streamed platform served_rules "http" s
                (mkURL "http:" "x" "/a.js" "" "")
                (mkRule (Some "file") (VStr "/srv/a.js") (rule_match (PString "/a.js"))
                        (Some (mkHandler (Some file) None)))
                None "/srv/a.js"
                ltac:(vm_compute; reflexivity) Hf eq_refl eq_refl
                ltac:(discriminate) eq_refl ltac:(discriminate) He) as W.
  cbv zeta in W. unfold s'.
  destruct (forwardRequest served_rules "http" s) as [s1 r1].
  destruct W as (_ & _ & _ & Hh & Hp & Hfin & _).
  cbn [fst]. split; [exact Hh|]. split; [exact Hp|exact Hfin].
Defined.

(** [GET http://x/hello] under [content|/hello|hi]. *)
Lemma content_rule_answers_its_argument_witness :
  let s := idle (request "GET" "http://x/hello" "x") in
  let s' := fst (forwardRequest content_rules "http" s) in
  find_rule content_rules (req s) = Ok (hd_error content_rules)
  /\ head (res s') = Some (200, "", acao_only)
  /\ finished (res s') = true
  /\ body (res s') = Some "hi".
Proof.
  intros s s'.
  assert (Hf : find_rule content_rules (req s) = Ok (hd_error content_rules))
    by (apply find_rule_head; vm_compute; reflexivity).
  split; [exact Hf|].
  pose proof (@content_rule_answers_its_argument platform (fun _ => Ok "{}")
                content_rules "http" s
                (mkURL "http:" "x" "/hello" "" "")
                (mkRule (Some "content") (VStr "hi") (rule_match (PString "/hello"))
                        (Some (mkHandler (Some (content (fun _ => Ok "{}"))) None)))
                None
                ltac:(vm_compute; reflexivity) Hf eq_refl
                ltac:(discriminate) eq_refl) as W.
  cbv zeta in W. unfold s'.
  destruct (forwardRequest content_rules "http" s) as [s1 r1].
  destruct W as [W _]. destruct (W "hi" eq_refl) as (_ & _ & Hh & Hfin & Hb & _).
  cbn [fst]. split; [exact Hh|]. split; [exact Hfin|exact Hb].
Defined.

(** [GET http://x/api] under [forward|/api|nowhere]. *)
Lemma forward_to_invalid_url_throws_witness :
  let s := idle (request "GET" "http://x/api" "x") in
  find_rule lost_rules (req s) = Ok (hd_error lost_rules)
  /\ URL_parse "nowhere" None = Throw ERR_INVALID_URL
  /\ snd (forwardRequest lost_rules "http" s) = Throw ERR_INVALID_URL
  /\ res (fst (forwardRequest lost_rules "http" s)) = fresh_response
  /\ req_flowing (req (fst (forwardRequest lost_rules "http" s))) = Some false.
Proof.
  intros s.
  assert (Hf : find_rule lost_rules (req s) = Ok (hd_error lost_rules))
    by (apply find_rule_head; vm_compute; reflexivity).
  assert (Hu : URL_parse "nowhere" None = Throw ERR_INVALID_URL)
    by (vm_compute; reflexivity).
  split; [exact Hf|]. split; [exact Hu|].
  pose proof (@forward_to_invalid_url_throws platform lost_rules "http" s
                (mkURL "http:" "x" "/api" "" "")
                (mkRule (Some "forward") (VStr "nowhere") (rule_match (PString "/api"))
                        (Some (mkHandler (Some forward) None)))
                None "nowhere" ERR_INVALID_URL
                ltac:(vm_compute; reflexivity) Hf eq_refl eq_refl
                ltac:(discriminate) Hu) as W.
  cbv zeta in W.
  destruct (forwardRequest lost_rules "http" s) as [s1 r1].
  destruct W as (Hr & Hres & Hq & _).
  cbn [fst snd]. split; [exact Hr|]. split; [rewrite Hres; reflexivity|].
  rewrite Hq. reflexivity.
Defined.

(** The upstream image, relayed to a client under no rule. *)
Lemma upstream_answer_is_relayed_witness :
  let s := idle (request "GET" "http://x/img" "x") in
  let s' := fst (upstream_response 1 None upstream_image s) in
  journalled 1 s
  /\ head_status (res s') = Some 200
  /\ head_header "Content-Type" (res s') = Some (VStr "image/png")
  /\ head_header ACAO (res s') = None
  /\ piped (res s') = Some upstream_image.
Proof.
  intros s s'.
  assert (Hj : journalled 1 s) by (intros i Hi; discriminate Hi).
  split; [exact Hj|].
  pose proof (@upstream_answer_is_relayed 1 None
                (own_props upstream_image) 200 "OK" Object_
                [("content-type", VStr "image/png")] s
                eq_refl eq_refl Hj eq_refl ltac:(lia) eq_refl eq_refl eq_refl
                eq_refl) as W.
  cbv zeta in W. unfold s'.
  change (VObj IncomingMessage_ (own_props upstream_image)) with upstream_image in W.
  destruct (upstream_response 1 None upstream_image s) as [s1 r1].
  destruct W as (_ & (hs & Hh & Hl) & Hp & _).
  cbn [fst]. unfold head_status, head_header. rewrite Hh.
  split; [reflexivity|]. rewrite !Hl.
  split; [reflexivity|]. split; [reflexivity|exact Hp].
Defined.

(** A rule added after the file rule does not take its request. *)
Lemma first_matching_rule_wins_witness :
  let r := request "GET" "http://x/a.js" "x" in
  find_rule served_rules r = Ok (hd_error served_rules)
  /\ find_rule (add_file (PString "/a") (VStr "/srv/b.js") served_rules) r
     = Ok (hd_error served_rules).
Proof.
  intros r.
  assert (Hf : find_rule served_rules r = Ok (hd_error served_rules))
    by (apply find_rule_head; vm_compute; reflexivity).
  split; [exact Hf|].
  destruct (@first_matching_rule_wins platform served_rules r) as (_ & Hadd & _).
  exact (Hadd _ (PString "/a") (VStr "/srv/b.js") (Some "file") (Some file)
              None None Hf).
Defined.

(** A request the file rule does not match reaches the rule whose
    matcher throws. *)
Lemma dispatch_throws_before_any_effect_witness :
  let s := idle (request "GET" "http://x/b.js" "x") in
  forwardRequest broken_rules "http" s = (s, Throw (Exn "SyntaxError" "")).
Proof.
  intros s.
  apply (@dispatch_throws_before_any_effect platform broken_rules "http" s).
  right. exists (mkURL "http:" "x" "/b.js" "" ""), served_rules,
    (mkRule (Some "broken") VUndefined (fun _ => Throw (Exn "SyntaxError" "")) None),
    [].
  split; [vm_compute; reflexivity|]. split; [reflexivity|].
  split; [|reflexivity].
  constructor; [vm_compute; reflexivity|constructor].
Defined.


(** [http://x:8080/a] and [http://x/8080/a] share their cache files. *)
Lemma port_and_path_share_cache_files_witness :
  let r1 := request "GET" "/a" "x:8080" in
  let r2 := request "GET" "/8080/a" "x" in
  cache_url r1 = Ok (mkURL "http:" "x:8080" "/a" "" "")
  /\ cache_url r2 = Ok (mkURL "http:" "x" "/8080/a" "" "")
  /\ getCacheFile "/cache" r2 (VBool false) empty_fs
     = getCacheFile "/cache" r1 (VBool false) empty_fs.
Proof.
  intros r1 r2.
  assert (H1 : cache_url r1 = Ok (mkURL "http:" "x:8080" "/a" "" ""))
    by (vm_compute; reflexivity).
  assert (H2 : cache_url r2 = Ok (mkURL "http:" "x" "/8080/a" "" ""))
    by (vm_compute; reflexivity).
  split; [exact H1|]. split; [exact H2|].
  exact (@port_and_path_share_cache_files platform "/cache" r1 r2 (VBool false)
           empty_fs _ _ "x" "8080" H1 H2 eq_refl eq_refl eq_refl eq_refl eq_refl
           eq_refl eq_refl).
Defined.

(** A request journalled under number 1 and answered 404. *)
Lemma journal_entry_of_a_request_witness :
  let s := watched (request "GET" "http://x/a.js" "x") in
  let s2 := fst (Insp.onRespond 1 gone (fst (Insp.onRequest 1 (Some "file") s))) in
  inspector s = Some journal
  /\ exists i2 e,
       inspector s2 = Some i2 /\ entries i2 !! 1%nat = Some e
       /\ ireq_url (entry_req e) = "http://x/a.js"
       /\ entry_rule e = Some "file"
       /\ entry_res e = Some (mkIRes (VObj Object_ []) (VNum 404) VUndefined).
Proof.
  intros s s2. split; [reflexivity|].
  pose proof (journal_entry_of_a_request 1 (Some "file") gone s journal
                eq_refl eq_refl) as W.
  unfold s2. destruct (Insp.onRequest 1 (Some "file") s) as [s1 r1].
  cbn [fst]. destruct (Insp.onRespond 1 gone s1) as [s3 r3].
  destruct W as (_ & _ & (i2 & e & Hi & _ & He & _ & Hu & _ & _ & Hr & Hres & _) & _).
  exists i2, e. cbn [fst]. split; [exact Hi|]. split; [exact He|].
  split; [exact Hu|]. split; [exact Hr|exact Hres].
Defined.

(** Ten seconds after construction: three updates, three timers. *)
Lemma every_late_update_arms_a_timer_witness :
  let times := [epoch + 10000; epoch + 10001; epoch + 10002] in
  handles_fresh no_timers
  /\ Forall (fun now => nextSaveTime journal < now /\ 4000 < now) times
  /\ size (pending (snd (updates times journal no_timers))) = 3%nat.
Proof.
  intros times.
  assert (Hf : handles_fresh no_timers).
  { intros h due Hl. vm_compute in Hl. discriminate Hl. }
  assert (Hall : Forall (fun now => nextSaveTime journal < now /\ 4000 < now) times).
  { repeat constructor; vm_compute; reflexivity. }
  split; [exact Hf|]. split; [exact Hall|].
  pose proof (every_late_update_arms_a_timer times journal no_timers Hf Hall) as W.
  destruct (updates times journal no_timers) as [i t].
  destruct W as (Hsize & _). cbn [snd]. rewrite Hsize. reflexivity.
Defined.

(** A rule string with a pattern between parentheses, and one with a
    bar too many. *)
Lemma rule_string_is_cut_at_bars_witness :
  Cli.parse "file|(a.+b)|/srv/a.js"
  = Ok (Cli.mkRuleString "file" (Some (PRegExp (mkRegExp "a.+b" ""))) (VStr "/srv/a.js"))
  /\ Cli.parse "content|/a|x|y" = Cli.parse "content|/a|x".
Proof.
  split.
  - destruct (@rule_string_is_cut_at_bars platform "file" "(a.+b)" "/srv/a.js"
                eq_refl eq_refl eq_refl) as (_ & Hre & _).
    refine (eq_trans (Hre "a.+b" eq_refl _ eq_refl) _);
      [discriminate|vm_compute; reflexivity].
  - destruct (@rule_string_is_cut_at_bars platform "content" "/a" "x"
                eq_refl eq_refl eq_refl) as (Hcut & _).
    exact (Hcut "y").
Defined.


(** A rule file of three lines, the second blank, after one rule given
    as an option. *)
Lemma rule_file_lines_follow_the_options_witness :
  Cli.rule_strings ["content|/a|x"]
    (Some (Str.join (String Cli.newline "")
                    ["file|/b|/srv/b"; "  "; " forward|/c|http://y/ "]))
  = ["content|/a|x"; "file|/b|/srv/b"; " forward|/c|http://y/ "].
Proof.
  rewrite (rule_file_lines_follow_the_options ["content|/a|x"]
             ["file|/b|/srv/b"; "  "; " forward|/c|http://y/ "]
             ltac:(discriminate)
             ltac:(repeat constructor)).
  reflexivity.
Defined.


(** The first request for [/img] under the cache rule, and the
    upstream image that answers it. *)
Lemma cache_miss_is_fetched_and_stored_witness :
  let s := idle (request "GET" "http://x/img?a=1" "x") in
  let s1 := fst (forwardRequest cache_rules "http" s) in
  let s2 := fst (upstream_response 1 (hd_error cache_rules) upstream_image s1) in
  find_rule cache_rules (req s) = Ok (hd_error cache_rules)
  /\ getCacheFile "/cache" (pause (req s)) (by_query VUndefined) (disk s) = Ok img_file
  /\ requests s1 = {[ 1%nat := (img_file, VNum 60) ]}
  /\ requests s2 = requests s1
  /\ snd (upstream_response 1 (hd_error cache_rules) upstream_image s1) = Ok tt.
Proof.
  intros s s1 s2.
  assert (Hf : find_rule cache_rules (req s) = Ok (hd_error cache_rules))
    by (apply find_rule_head; vm_compute; reflexivity).
  assert (Hc : getCacheFile "/cache" (pause (req s)) (by_query VUndefined) (disk s)
               = Ok img_file) by (vm_compute; reflexivity).
  split; [exact Hf|]. split; [exact Hc|].
  pose proof (@cache_miss_is_fetched_and_stored platform cache_rules "http" s
                (mkURL "http:" "x" "/img" "?a=1" "")
                (mkRule (Some "cache") (cache_args (VNum 60) VUndefined)
                        (rule_match (PString "/img"))
                        (Some (CacheRule "/cache")))
                "/cache" (VNum 60) VUndefined img_file (own_props upstream_image)
                ltac:(vm_compute; reflexivity) Hf eq_refl eq_refl
                ltac:(discriminate) eq_refl Hc eq_refl) as W.
  cbv zeta in W. unfold s2, s1.
  change (VObj IncomingMessage_ (own_props upstream_image)) with upstream_image in W.
  destruct (forwardRequest cache_rules "http" s) as [t1 r1].
  cbn [fst].
  match type of W with context [upstream_response ?a ?b ?c t1] =>
    change (upstream_response a b c t1)
      with (upstream_response 1 (hd_error cache_rules) upstream_image t1) in W end.
  destruct (upstream_response 1 (hd_error cache_rules) upstream_image t1) as [t2 r2].
  destruct W as (_ & Hq1 & _ & _ & _ & Hr2 & Hq2 & _).
  cbn [fst snd]. split; [rewrite Hq1; reflexivity|].
  split; [exact Hq2|exact Hr2].
Defined.

